(** * image_matcher: top-N matching over precomputed feature vectors

    A shallow embedding of [src/image_matcher.cpp]: [find_target_index], the
    four [find_topN_matches_*] routines and [main], together with the
    properties of the ranking they compute.

    Conventions of the embedding.
    - [int] values are [Z]; a conversion to [int] ([static_cast<int>], the
      assignment [target_index = i]) is [to_int], a conversion of an [int]
      to [size_t] is [to_size_t].
    - [char *] strings are [string]; [strcmp (a, b) == 0] is [String.eqb].
    - [std::vector<T>] is [list T]; [v[i]] outside the vector is undefined
      behaviour ([Undefined]).
    - [float] is a type of the platform with its [operator<]; the scoring
      helpers of [distance_calculate.h], the CSV reader of [csv_util.h] and
      OpenCV's [imread] are not part of the file and are fields of the
      platform too.
    - Output, calls of the helpers and process exit are effects: a
      computation yields the trace of its events and an [outcome]. *)

From Stdlib Require Import ZArith List String Ascii Bool Lia.
From Stdlib Require Import Permutation Sorted.
Import ListNotations.
Local Open Scope string_scope.
Local Open Scope list_scope.
Local Open Scope Z_scope.

(** ** Machine integers *)

Definition INT_MAX : Z := 2147483647.
Definition INT_MIN : Z := -2147483648.

(** Conversion to a 32-bit [int] (two's complement wrap-around). *)
Definition to_int (z : Z) : Z := (z + 2 ^ 31) mod 2 ^ 32 - 2 ^ 31.

(** Conversion of an [int] to the 64-bit [size_t]. *)
Definition to_size_t (z : Z) : Z := z mod 2 ^ 64.

Definition in_int_range (z : Z) : bool := (INT_MIN <=? z) && (z <=? INT_MAX).

(** ** Effects *)

(** The scoring helpers declared in [distance_calculate.h]. *)
Inductive helper : Type :=
| calculate_ssd
| calculate_histogramIntersection
| calculate_multiHist_distance
| calculate_textureColor_distance.

(** What a scoring helper can fail with. *)
Inductive exn : Type :=
| DimensionMismatch
| OtherFailure (what : string).

Inductive arg : Type :=
| AStr (s : string)
| AInt (z : Z).

Inductive event : Type :=
| Stdout (fmt : string) (args : list arg)
| Stderr (msg : string)
| ReadCsv (file : string)
| Scored (h : helper) (i : Z)
| Imread (file : string)
| Imshow (window : string)
| DisplayGallery (files : list string).

Inductive outcome (A : Type) : Type :=
| Returns (a : A)
| Exits (status : Z)
| Throws (e : exn)
| Undefined.

Arguments Returns {A} a.
Arguments Exits {A} status.
Arguments Throws {A} e.
Arguments Undefined {A}.

(** A computation: the events it emitted, in order, and how it ended. *)
Definition M (A : Type) : Type := (list event * outcome A)%type.

Definition ret {A} (a : A) : M A := ([], Returns a).

Definition bind {A B} (m : M A) (f : A -> M B) : M B :=
  match m with
  | (t, Returns a) => let (t', r) := f a in (t ++ t', r)
  | (t, Exits s) => (t, Exits s)
  | (t, Throws e) => (t, Throws e)
  | (t, Undefined) => (t, Undefined)
  end.

Definition emit (e : event) : M unit := ([e], Returns tt).
Definition exit {A} (status : Z) : M A := ([], Exits status).
Definition throw {A} (e : exn) : M A := ([], Throws e).
Definition undefined {A} : M A := ([], Undefined).

Declare Scope m_scope.
Delimit Scope m_scope with m.
Notation "x <- c ;; k" := (bind c (fun x => k))
  (at level 61, c at next level, right associativity) : m_scope.
Notation "c ;; k" := (bind c (fun _ => k))
  (at level 61, right associativity) : m_scope.
Local Open Scope m_scope.

Definition printf (fmt : string) (args : list arg) : M unit :=
  emit (Stdout fmt args).
Definition cout (s : string) : M unit := emit (Stdout s []).
Definition cerr (s : string) : M unit := emit (Stderr s).

Definition nl : string := String (ascii_of_nat 10) "".

(** A format or message that ends in a newline. *)
Definition line (s : string) : string := (s ++ nl)%string.

(** [v[i]] for an [int] or [size_t] index [i]. *)
Definition vec_at {A} (v : list A) (i : Z) : M A :=
  if i <? 0 then undefined
  else match nth_error v (Z.to_nat i) with
       | Some a => ret a
       | None => undefined
       end.

(** [strcpy (buf, s)] into a [char buf[size]]. *)
Definition strcpy (size : Z) (s : string) : M string :=
  if Z.of_nat (String.length s) <? size then ret s else undefined.

(** ** [atoi] *)

Definition is_space (c : ascii) : bool :=
  let n := nat_of_ascii c in
  (Nat.eqb n 32 || (Nat.leb 9 n && Nat.leb n 13))%bool.

Definition digit_of (c : ascii) : option Z :=
  let n := nat_of_ascii c in
  if (Nat.leb 48 n && Nat.leb n 57)%bool then Some (Z.of_nat n - 48) else None.

Fixpoint atoi_digits (s : string) (acc : Z) : Z :=
  match s with
  | EmptyString => acc
  | String c rest =>
      match digit_of c with
      | Some d => atoi_digits rest (10 * acc + d)
      | None => acc
      end
  end.

Definition atoi_signed (s : string) : Z :=
  match s with
  | String "-" rest => - atoi_digits rest 0
  | String "+" rest => atoi_digits rest 0
  | _ => atoi_digits s 0
  end.

Fixpoint atoi_value (s : string) : Z :=
  match s with
  | String c rest => if is_space c then atoi_value rest else atoi_signed s
  | EmptyString => 0
  end.

(** [atoi]: the value is undefined when it does not fit an [int]. *)
Definition atoi (s : string) : M Z :=
  let v := atoi_value s in
  if in_int_range v then ret v else undefined.

(** ** The platform *)

Class Platform : Type := {
  (** the type [float] and its [operator<] *)
  float : Type;
  flt : float -> float -> bool;
  (** the helpers of [distance_calculate.h] *)
  calculate : helper -> list float -> list float -> exn + float;
  (** [read_image_data_csv]: status, file names and feature rows *)
  read_image_data_csv : string -> Z * (list string * list (list float));
  (** [cv::imread (file).empty ()] *)
  imread_empty : string -> bool
}.

(** [operator<] of [float] is a strict weak order (no NaN among the
    scores), the precondition of [std::sort]. *)
Class FloatOrder (P : Platform) : Prop := {
  flt_irrefl : forall x, flt x x = false;
  flt_trans : forall x y z, flt x y = true -> flt y z = true -> flt x z = true;
  flt_cotrans : forall x y z, flt x z = true -> flt x y = true \/ flt y z = true
}.

Section Program.
Context {P : Platform}.

Definition feature : Type := list float.
Definition scored : Type := (float * Z)%type.

(** [operator<] of [std::pair<float, int>]. *)
Definition pair_lt (p q : scored) : bool :=
  flt (fst p) (fst q) || (negb (flt (fst q) (fst p)) && (snd p <? snd q)).

(** [std::sort] is the library's: any routine that returns its input
    permuted and sorted for [operator<]. *)
Variable std_sort : list scored -> list scored.

(** [sort (v.begin (), v.end ())] *)
Definition sort_forward (v : list scored) : list scored := std_sort v.

(** [sort (v.rbegin (), v.rend ())]: the reversed view is sorted. *)
Definition sort_reverse (v : list scored) : list scored :=
  rev (std_sort (rev v)).

(** A call of a scoring helper on [data[i]] and the target vector. *)
Definition call (h : helper) (i : Z) (a b : feature) : M float :=
  emit (Scored h i);;
  match calculate h a b with
  | inr d => ret d
  | inl e => throw e
  end.

(** [find_target_index]: the loop from index [i] on. *)
Fixpoint find_target_index_from (target_image_filename : string)
    (filenames : list string) (i : Z) : Z :=
  match filenames with
  | [] => -1
  | f :: rest =>
      if String.eqb f target_image_filename then to_int i
      else find_target_index_from target_image_filename rest (i + 1)
  end.

Definition find_target_index (target_image_filename : string)
    (filenames : list string) : Z :=
  find_target_index_from target_image_filename filenames 0.

(** Step 2 of the matchers: the loop over [data] from index [i] on,
    [rows] being [data[i..]]. *)
Fixpoint score_loop (h : helper) (target_vector : feature) (target_index : Z)
    (rows : list feature) (i : Z) (distances : list scored) : M (list scored) :=
  match rows with
  | [] => ret distances
  | row :: rest =>
      if i =? to_size_t target_index then
        score_loop h target_vector target_index rest (i + 1) distances
      else
        dist <- call h i row target_vector;;
        score_loop h target_vector target_index rest (i + 1)
          (distances ++ [(dist, to_int i)])
  end.

(** Step 4 of the matchers: the loop from [i] on, [rest] being
    [distances[i..]]. *)
Fixpoint output_loop (filenames : list string) (N : Z) (rest : list scored)
    (i : Z) (output : list string) : M (list string) :=
  match rest with
  | [] => ret output
  | (_, match_index) :: rest' =>
      if i <? N then
        f <- vec_at filenames match_index;;
        output_loop filenames N rest' (i + 1) (output ++ [f])
      else ret output
  end.

Definition find_topN_matches_ssd (target_image_filename : string)
    (filenames : list string) (data : list feature) (N : Z)
    (output : list string) : M (Z * list string) :=
  let target_index := find_target_index target_image_filename filenames in
  if target_index =? -1 then
    cerr (line "Target image not found!");;
    ret (-1, output)
  else
    target_vector <- vec_at data (to_size_t target_index);;
    distances <- score_loop calculate_ssd target_vector target_index data 0 [];;
    let distances := sort_forward distances in
    output <- output_loop filenames N distances 0 output;;
    ret (0, output).

Definition find_topN_matches_rgb_hist (target_image_filename : string)
    (filenames : list string) (data : list feature) (N : Z)
    (output : list string) : M (Z * list string) :=
  let target_index := find_target_index target_image_filename filenames in
  if target_index =? -1 then
    cerr (line "Target image not found!");;
    ret (-1, output)
  else
    target_vector <- vec_at data (to_size_t target_index);;
    distances <- score_loop calculate_histogramIntersection target_vector
                   target_index data 0 [];;
    let distances := sort_reverse distances in
    output <- output_loop filenames N distances 0 output;;
    ret (0, output).

Definition find_topN_matches_multiHist (target_image_filename : string)
    (filenames : list string) (data : list feature) (N : Z)
    (output : list string) : M (Z * list string) :=
  let target_index := find_target_index target_image_filename filenames in
  if target_index =? -1 then
    cerr (line "Target image not found!");;
    ret (-1, output)
  else
    target_vector <- vec_at data (to_size_t target_index);;
    distances <- score_loop calculate_multiHist_distance target_vector
                   target_index data 0 [];;
    let distances := sort_forward distances in
    output <- output_loop filenames N distances 0 output;;
    ret (0, output).

Definition find_topN_matches_textureColor (target_image_filename : string)
    (filenames : list string) (data : list feature) (N : Z)
    (output : list string) : M (Z * list string) :=
  let target_index := find_target_index target_image_filename filenames in
  if target_index =? -1 then
    cerr (line "Target image not found!");;
    ret (-1, output)
  else
    target <- vec_at data (to_size_t target_index);;
    distances <- score_loop calculate_textureColor_distance target
                   target_index data 0 [];;
    let distances := sort_forward distances in
    output <- output_loop filenames N distances 0 output;;
    ret (0, output).

(** The loop of [main] that prints the output file names. *)
Fixpoint print_filenames (output : list string) : M unit :=
  match output with
  | [] => ret tt
  | filename :: rest => printf "%s " [AStr filename];; print_filenames rest
  end.

(** The test of step 5 of [main]. *)
Definition metric_rejected (distance_metric : string) : bool :=
  negb (String.eqb distance_metric "ssd")
  && negb (String.eqb distance_metric "rgb-hist")
  && negb (String.eqb distance_metric "multi-hist")
  && negb (String.eqb distance_metric "texture-color")
  && negb (String.eqb distance_metric "depth-dnn").

Definition main (argv : list string) : M Z :=
  let argc := Z.of_nat (List.length argv) in
  if argc <? 5 then
    printf (line "usage: %s <target_image> <feature_file> <N> <distance_metric>")
      [AStr (nth 0 argv "")];;
    printf (line "distance_metric options: ssd, rgb-hist, multi-hist, texture-color") [];;
    exit (-1)
  else
    target_image <- strcpy 256 (nth 1 argv "");;
    printf "Find similar images for image %s " [AStr target_image];;
    feature_file <- strcpy 256 (nth 2 argv "");;
    printf (line "from feature file %s") [AStr feature_file];;
    N <- atoi (nth 3 argv "");;
    if N <=? 0 then
      printf (line "Invalid value for N: %d. N must be a positive integer.") [AInt N];;
      exit (-1)
    else
      let distance_metric := nth 4 argv "" in
      (if metric_rejected distance_metric then
         printf (line "Invalid distance metric: %s. Must be 'ssd', 'intersection', 'multi-hist' or 'texture-color' or 'depth-dnn'.")
           [AStr (nth 4 argv "")];;
         printf (line "Using distance metric: %s") [AStr distance_metric]
       else ret tt);;
      emit (ReadCsv feature_file);;
      let '(result, (filenames, data)) := read_image_data_csv feature_file in
      if negb (result =? 0) then
        printf (line "Can not read the image csv file: %s") [AStr (nth 2 argv "")];;
        exit (-1)
      else
        r <- (if String.eqb distance_metric "ssd" then
                find_topN_matches_ssd target_image filenames data N []
              else if String.eqb distance_metric "rgb-hist" then
                find_topN_matches_rgb_hist target_image filenames data N []
              else if String.eqb distance_metric "multi-hist" then
                find_topN_matches_multiHist target_image filenames data N []
              else if String.eqb distance_metric "texture-color" then
                find_topN_matches_textureColor target_image filenames data N []
              else if String.eqb distance_metric "depth" then
                find_topN_matches_textureColor target_image filenames data N []
              else ret (-1, []));;
        let '(result, output) := r in
        if negb (result =? 0) then
          printf "Can not process the files: " [];;
          exit (-1)
        else
          cout "Output filenames: ";;
          print_filenames output;;
          cout nl;;
          emit (Imread target_image);;
          if imread_empty target_image then
            printf (line "Target image empty!") [AStr (nth 0 argv "")];;
            exit (-1)
          else
            emit (Imshow "target");;
            emit (DisplayGallery output);;
            ret 0.

End Program.

(** The events of [main] up to the reading of [N]. *)
Definition banner (argv : list string) : list event :=
  [Stdout "Find similar images for image %s " [AStr (nth 1 argv "")];
   Stdout (line "from feature file %s") [AStr (nth 2 argv "")]].

(** ** The four matchers as one table *)

(** The metrics [main] dispatches on. *)
Inductive metric : Type := ssd | rgb_hist | multi_hist | texture_color.

Section Matchers.
Context {P : Platform}.
Variable std_sort : list scored -> list scored.

Definition find_topN_matches (m : metric) :
    string -> list string -> list feature -> Z -> list string ->
    M (Z * list string) :=
  match m with
  | ssd => find_topN_matches_ssd std_sort
  | rgb_hist => find_topN_matches_rgb_hist std_sort
  | multi_hist => find_topN_matches_multiHist std_sort
  | texture_color => find_topN_matches_textureColor std_sort
  end.

(** The helper a matcher calls. *)
Definition helper_of (m : metric) : helper :=
  match m with
  | ssd => calculate_ssd
  | rgb_hist => calculate_histogramIntersection
  | multi_hist => calculate_multiHist_distance
  | texture_color => calculate_textureColor_distance
  end.

(** Whether a matcher sorts through reverse iterators. *)
Definition descending (m : metric) : bool :=
  match m with
  | rgb_hist => true
  | _ => false
  end.

(** The sequence step 3 leaves in [distances]. *)
Definition arrange (desc : bool) (distances : list scored) : list scored :=
  if desc then sort_reverse std_sort distances
  else sort_forward std_sort distances.

(** The body the four matchers share, by helper and sort direction. *)
Definition topN (h : helper) (desc : bool) (target_image_filename : string)
    (filenames : list string) (data : list feature) (N : Z)
    (output : list string) : M (Z * list string) :=
  let target_index := find_target_index target_image_filename filenames in
  if target_index =? -1 then
    cerr (line "Target image not found!");;
    ret (-1, output)
  else
    target_vector <- vec_at data (to_size_t target_index);;
    distances <- score_loop h target_vector target_index data 0 [];;
    let distances :=
      if desc then sort_reverse std_sort distances
      else sort_forward std_sort distances in
    output <- output_loop filenames N distances 0 output;;
    ret (0, output).

End Matchers.

(** ** The steps of [main] around the matcher *)

Section Steps.
Context {P : Platform}.

(** The name by which step 6 of [main] selects a matcher. *)
Definition metric_name (m : metric) : string :=
  match m with
  | ssd => "ssd"
  | rgb_hist => "rgb-hist"
  | multi_hist => "multi-hist"
  | texture_color => "texture-color"
  end.

(** The two lines step 5 of [main] prints for a name it rejects. *)
Definition warning (distance_metric : string) : list event :=
  if metric_rejected distance_metric then
    [Stdout (line "Invalid distance metric: %s. Must be 'ssd', 'intersection', 'multi-hist' or 'texture-color' or 'depth-dnn'.")
       [AStr distance_metric];
     Stdout (line "Using distance metric: %s") [AStr distance_metric]]
  else [].

(** Step 7 of [main] and what follows it, from the status and the output
    of step 6. *)
Definition finish (argv : list string) (target_image : string)
    (r : Z * list string) : M Z :=
  let '(result, output) := r in
  if negb (result =? 0) then
    printf "Can not process the files: " [];;
    exit (-1)
  else
    cout "Output filenames: ";;
    print_filenames output;;
    cout nl;;
    emit (Imread target_image);;
    if imread_empty target_image then
      printf (line "Target image empty!") [AStr (nth 0 argv "")];;
      exit (-1)
    else
      emit (Imshow "target");;
      emit (DisplayGallery output);;
      ret 0.

(** A computation after the events [t]. *)
Definition after {A} (t : list event) (m : M A) : M A := (t ++ fst m, snd m).

End Steps.

(** ** Specification vocabulary *)

Section Vocabulary.
Context {P : Platform}.

(** [a == b] on scores that are not NaN. *)
Definition equal_score (a b : float) : Prop :=
  flt a b = false /\ flt b a = false.

(** A sequence in the order [std::sort] leaves it in. *)
Definition ascending_sorted (l : list scored) : Prop :=
  StronglySorted (fun p q => pair_lt q p = false) l.

Definition descending_sorted (l : list scored) : Prop :=
  StronglySorted (fun p q => pair_lt p q = false) l.

(** The contract of [std::sort] on [pair<float, int>]. *)
Definition sort_contract (srt : list scored -> list scored) : Prop :=
  forall l, Permutation l (srt l) /\ ascending_sorted (srt l).

(** Position of the first file name equal to [target]. *)
Fixpoint first_index (target : string) (filenames : list string) : option nat :=
  match filenames with
  | [] => None
  | f :: rest =>
      if String.eqb f target then Some O
      else option_map S (first_index target rest)
  end.

(** The rows with their indices, from index [i] on. *)
Fixpoint enum_from {A} (i : Z) (l : list A) : list (Z * A) :=
  match l with
  | [] => []
  | a :: rest => (i, a) :: enum_from (i + 1) rest
  end.

(** The entries a matcher scores: every row but the one at [t]. *)
Definition candidates_from (t : Z) (rows : list feature) (i : Z) :
    list (Z * feature) :=
  filter (fun c => negb (fst c =? t)) (enum_from i rows).

Definition candidates (t : Z) (data : list feature) : list (Z * feature) :=
  candidates_from t data 0.

(** The scores of a list of candidates, or the first failure. *)
Fixpoint score_list (h : helper) (tv : feature) (cs : list (Z * feature)) :
    exn + list scored :=
  match cs with
  | [] => inr []
  | (j, row) :: rest =>
      match calculate h row tv with
      | inl e => inl e
      | inr d =>
          match score_list h tv rest with
          | inl e => inl e
          | inr ps => inr ((d, to_int j) :: ps)
          end
      end
  end.

(** The helper calls made for a list of candidates: up to and with the
    first that fails. *)
Fixpoint scored_events (h : helper) (tv : feature) (cs : list (Z * feature)) :
    list event :=
  match cs with
  | [] => []
  | (j, row) :: rest =>
      Scored h j ::
      match calculate h row tv with
      | inl _ => []
      | inr _ => scored_events h tv rest
      end
  end.

(** The file name a match index stands for. *)
Definition name_at (filenames : list string) (j : Z) : string :=
  nth (Z.to_nat j) filenames "".

Definition names (filenames : list string) (ranked : list scored) : list string :=
  map (fun p => name_at filenames (snd p)) ranked.

(** [p] is the score of an entry of [data] other than the one at [t],
    against the vector at [t]. *)
Definition scored_entry (h : helper) (data : list feature) (t : nat)
    (p : scored) : Prop :=
  exists j row tv,
    snd p = Z.of_nat j /\ j <> t /\
    nth_error data j = Some row /\ nth_error data t = Some tv /\
    calculate h row tv = inr (fst p).

(** Adjacent matches are in the order of the metric: not decreasing
    scores, or not increasing scores for a descending metric. *)
Definition score_order (desc : bool) (ranked : list scored) : Prop :=
  forall i a b,
    nth_error ranked i = Some a -> nth_error ranked (S i) = Some b ->
    if desc then flt (fst a) (fst b) = false else flt (fst b) (fst a) = false.

(** Matches of equal score are in the order of their indices in the data
    set, or in the opposite order for a descending metric. *)
Definition tie_order (desc : bool) (ranked : list scored) : Prop :=
  forall x y p q,
    (x < y)%nat -> nth_error ranked x = Some p -> nth_error ranked y = Some q ->
    equal_score (fst p) (fst q) ->
    if desc then snd q < snd p else snd p < snd q.

(** A data set the matchers accept: as many names as rows, indices that
    fit an [int]. *)
Definition well_formed (filenames : list string) (data : list feature) : Prop :=
  List.length filenames = List.length data /\
  Z.of_nat (List.length data) <= 2 ^ 31.

(** Every entry other than the one at [t] has a score. *)
Definition all_scorable (h : helper) (data : list feature) (t : nat) : Prop :=
  forall j row tv,
    j <> t -> nth_error data j = Some row -> nth_error data t = Some tv ->
    exists d, calculate h row tv = inr d.

End Vocabulary.

(** ** A reference [std::sort]: insertion sort *)

Section Insertion.
Context {P : Platform}.

Fixpoint insert_sorted (p : scored) (l : list scored) : list scored :=
  match l with
  | [] => [p]
  | q :: rest => if pair_lt q p then q :: insert_sorted p rest else p :: l
  end.

Fixpoint isort (l : list scored) : list scored :=
  match l with
  | [] => []
  | p :: rest => insert_sorted p (isort rest)
  end.

End Insertion.

(** ** The metrics of the specification *)

(** Modelled from the spec: the scoring helpers [calculate_ssd],
    [calculate_histogramIntersection], [calculate_multiHist_distance] and
    [calculate_textureColor_distance] are declared in
    [include/distance_calculate.h], which is not among the sources. Section
    4.1: each metric function validates that both input vectors have the same
    length and fails with [DimensionMismatch] otherwise; [formula] stands for
    the arithmetic of the metric. *)
Definition checked_metric {F : Type} (formula : list F -> list F -> F)
    (a b : list F) : exn + F :=
  if Nat.eqb (List.length a) (List.length b) then inr (formula a b)
  else inl DimensionMismatch.

(** A platform whose helpers are the metrics of the specification. *)
Definition with_checked_metrics (P : Platform)
    (formula : helper -> list float -> list float -> float) : Platform :=
  {| float := float;
     flt := flt;
     calculate := fun h => checked_metric (formula h);
     read_image_data_csv := read_image_data_csv;
     imread_empty := imread_empty |}.

(** ** A platform to run the program on

    Scores are integers (exactly representable as [float]); the feature
    files are tables in memory. *)

Module Fixture.

Fixpoint sum_with (f : Z -> Z -> Z) (a b : list Z) : Z :=
  match a, b with
  | x :: a', y :: b' => f x y + sum_with f a' b'
  | _, _ => 0
  end.

(** Section 4.1: sum of squared differences, sum of minima; the two
    composites, whose rule the specification leaves open, are taken as the
    sum of absolute differences. *)
Definition formula (h : helper) (a b : list Z) : Z :=
  match h with
  | calculate_ssd => sum_with (fun x y => (x - y) * (x - y)) a b
  | calculate_histogramIntersection => sum_with Z.min a b
  | calculate_multiHist_distance => sum_with (fun x y => Z.abs (x - y)) a b
  | calculate_textureColor_distance => sum_with (fun x y => Z.abs (x - y)) a b
  end.

Definition files (file : string) : Z * (list string * list (list Z)) :=
  if String.eqb file "features.csv" then
    (0, (["A"; "B"; "C"], [[0; 0]; [1; 1]; [5; 5]]))
  else if String.eqb file "ties.csv" then
    (0, (["A"; "B"; "C"; "D"], [[5; 5]; [4; 6]; [6; 4]; [1; 9]]))
  else if String.eqb file "twice.csv" then
    (0, (["A"; "B"; "A"], [[0; 0]; [3; 3]; [1; 1]]))
  else if String.eqb file "ragged.csv" then
    (0, (["A"; "B"; "C"], [[0; 0]; [1; 1; 1]; [5; 5]]))
  else if String.eqb file "single.csv" then
    (0, (["A"], [[0; 0]]))
  else (-1, ([], [])).

Definition platform : Platform :=
  {| float := Z;
     flt := Z.ltb;
     calculate := fun h => checked_metric (formula h);
     read_image_data_csv := files;
     imread_empty := fun _ => false |}.

Definition sort : list (Z * Z) -> list (Z * Z) := @isort platform.

(** Another routine with the contract of [std::sort]: it scans its input
    from the back. *)
Definition sort_backwards (l : list (Z * Z)) : list (Z * Z) :=
  @isort platform (rev l).

(** A file name of [n] characters. *)
Fixpoint long_name (n : nat) : string :=
  match n with
  | O => EmptyString
  | S n' => String "a" (long_name n')
  end.

Definition names_of (file : string) : list string := fst (snd (files file)).
Definition rows_of (file : string) : list (list Z) := snd (snd (files file)).

End Fixture.

(** * Properties *)

(** ** Machine integers *)

Lemma to_int_small (z : Z) : 0 <= z <= INT_MAX -> to_int z = z.
Proof.
  unfold to_int, INT_MAX. intros Hz.
  rewrite Z.mod_small; lia.
Qed.

Lemma to_size_t_small (z : Z) : 0 <= z <= INT_MAX -> to_size_t z = z.
Proof.
  unfold to_size_t, INT_MAX. intros Hz.
  apply Z.mod_small. lia.
Qed.

(** ** The order of [pair<float, int>] *)

Section PairOrder.
Context {P : Platform} {FO : FloatOrder P}.

Lemma flt_asym (x y : float) : flt x y = true -> flt y x = false.
Proof.
  intros Hxy. destruct (flt y x) eqn:Hyx; [|reflexivity].
  rewrite <- (flt_irrefl x). symmetry. now apply flt_trans with y.
Qed.

Lemma pair_lt_irrefl (p : scored) : pair_lt p p = false.
Proof.
  unfold pair_lt. rewrite flt_irrefl, Z.ltb_irrefl. reflexivity.
Qed.

Lemma pair_lt_asym (p q : scored) : pair_lt p q = true -> pair_lt q p = false.
Proof.
  unfold pair_lt. intros H.
  apply orb_true_iff in H. destruct H as [H | H].
  - rewrite (flt_asym _ _ H), H. reflexivity.
  - apply andb_true_iff in H. destruct H as [H1 H2].
    apply negb_true_iff in H1. rewrite H1.
    apply Z.ltb_lt in H2.
    destruct (flt (fst p) (fst q)); simpl; [reflexivity|].
    apply Z.ltb_ge. lia.
Qed.

(** Pairs with different indices are always ordered one way or the other. *)
Lemma pair_lt_total (p q : scored) :
  snd p <> snd q -> pair_lt p q = true \/ pair_lt q p = true.
Proof.
  unfold pair_lt. intros Hne.
  destruct (flt (fst p) (fst q)); [now left|].
  destruct (flt (fst q) (fst p)); [now right|]. simpl.
  destruct (Z.ltb_spec (snd p) (snd q)); [now left|].
  right. apply Z.ltb_lt. lia.
Qed.

Lemma pair_lt_cotrans (p q r : scored) :
  pair_lt p r = true -> pair_lt p q = true \/ pair_lt q r = true.
Proof.
  unfold pair_lt. intros H.
  apply orb_true_iff in H. destruct H as [H | H].
  - destruct (flt_cotrans _ (fst q) _ H) as [H1 | H1]; rewrite H1; auto.
  - apply andb_true_iff in H. destruct H as [H1 H2].
    apply negb_true_iff in H1. apply Z.ltb_lt in H2.
    destruct (flt (fst p) (fst q)) eqn:Hpq; [now left|].
    destruct (flt (fst q) (fst r)) eqn:Hqr; [now right|].
    destruct (flt (fst q) (fst p)) eqn:Hqp.
    { destruct (flt_cotrans _ (fst r) _ Hqp) as [H3 | H3]; congruence. }
    destruct (flt (fst r) (fst q)) eqn:Hrq.
    { destruct (flt_cotrans _ (fst p) _ Hrq) as [H3 | H3]; congruence. }
    simpl. destruct (Z.ltb_spec (snd p) (snd q)); [now left|].
    right. apply Z.ltb_lt. lia.
Qed.

Lemma pair_le_trans (p q r : scored) :
  pair_lt q p = false -> pair_lt r q = false -> pair_lt r p = false.
Proof.
  intros Hpq Hqr. destruct (pair_lt r p) eqn:H; [|reflexivity].
  destruct (pair_lt_cotrans _ q _ H); congruence.
Qed.

(** *** Insertion sort meets the contract of [std::sort] *)

Lemma insert_sorted_perm (p : scored) (l : list scored) :
  Permutation (p :: l) (insert_sorted p l).
Proof.
  induction l as [|q l IH]; simpl; [reflexivity|].
  destruct (pair_lt q p); [|reflexivity].
  rewrite perm_swap. now constructor.
Qed.

Lemma isort_perm (l : list scored) : Permutation l (isort l).
Proof.
  induction l as [|p l IH]; simpl; [constructor|].
  rewrite <- insert_sorted_perm. now constructor.
Qed.

Lemma insert_sorted_sorted (p : scored) (l : list scored) :
  ascending_sorted l -> ascending_sorted (insert_sorted p l).
Proof.
  unfold ascending_sorted.
  induction l as [|q l IH]; simpl; intros Hl.
  - repeat constructor.
  - inversion Hl as [|? ? Hs Hall]; subst.
    destruct (pair_lt q p) eqn:Hqp.
    + constructor; [now apply IH|].
      rewrite <- insert_sorted_perm. constructor; [|assumption].
      now apply pair_lt_asym.
    + constructor; [assumption|]. constructor; [assumption|].
      eapply Forall_impl; [|exact Hall]. simpl. intros r Hr.
      now apply pair_le_trans with q.
Qed.

Lemma isort_sorted (l : list scored) : ascending_sorted (isort l).
Proof.
  induction l as [|p l IH]; simpl.
  - constructor.
  - now apply insert_sorted_sorted.
Qed.

Lemma isort_contract : sort_contract isort.
Proof. intros l. split; [apply isort_perm | apply isort_sorted]. Qed.

(** *** A sorted sequence with distinct indices is unique *)

Lemma sorted_perm_unique (l1 l2 : list scored) :
  ascending_sorted l1 -> ascending_sorted l2 -> Permutation l1 l2 ->
  NoDup (map snd l1) -> l1 = l2.
Proof.
  unfold ascending_sorted. revert l2.
  induction l1 as [|a l1 IH]; intros l2 H1 H2 Hp Hnd.
  - apply Permutation_nil in Hp. now subst.
  - destruct l2 as [|b l2].
    { apply Permutation_sym, Permutation_nil in Hp. discriminate. }
    inversion H1 as [|? ? Hs1 Ha]; subst.
    inversion H2 as [|? ? Hs2 Hb]; subst.
    inversion Hnd as [|? ? Hnotin Hnd']; subst.
    assert (Hab : b = a).
    { assert (Hin : In b (a :: l1)).
      { apply Permutation_in with (b :: l2); [now symmetry | now left]. }
      destruct Hin as [Heq | Hin]; [now subst|].
      exfalso.
      assert (Hne : snd b <> snd a).
      { intros Heq. apply Hnotin. rewrite <- Heq. now apply in_map. }
      assert (Hba : pair_lt b a = false).
      { rewrite Forall_forall in Ha. now apply Ha. }
      assert (Hin' : In a (b :: l2)).
      { apply Permutation_in with (a :: l1); [assumption | now left]. }
      destruct Hin' as [Heq | Hin']; [now subst|].
      assert (Hab : pair_lt a b = false).
      { rewrite Forall_forall in Hb. now apply Hb. }
      destruct (pair_lt_total b a Hne); congruence. }
    subst b. f_equal. apply IH; try assumption.
    now apply Permutation_cons_inv with a.
Qed.

(** Any two routines that meet the contract of [std::sort] agree on
    sequences with distinct indices. *)
Lemma sort_contract_unique (s1 s2 : list scored -> list scored) (l : list scored) :
  sort_contract s1 -> sort_contract s2 -> NoDup (map snd l) -> s1 l = s2 l.
Proof.
  intros C1 C2 Hnd.
  destruct (C1 l) as [Hp1 Hs1]. destruct (C2 l) as [Hp2 Hs2].
  apply sorted_perm_unique; try assumption.
  - now rewrite <- Hp1.
  - apply Permutation_NoDup with (map snd l); [|assumption].
    now apply Permutation_map.
Qed.

Lemma strongly_sorted_snoc {A} (R : A -> A -> Prop) (l : list A) (a : A) :
  StronglySorted R l -> Forall (fun x => R x a) l ->
  StronglySorted R (l ++ [a]).
Proof.
  induction 1 as [|b l Hs IH Hb]; simpl; intros Hall.
  - repeat constructor.
  - inversion Hall; subst. constructor; [now apply IH|].
    apply Forall_app. split; [assumption | now repeat constructor].
Qed.

Lemma ascending_rev (l : list scored) :
  ascending_sorted l -> descending_sorted (rev l).
Proof.
  unfold ascending_sorted, descending_sorted.
  induction 1 as [|a l Hs IH Ha]; simpl; [constructor|].
  apply strongly_sorted_snoc; [assumption|].
  apply Forall_forall. intros x Hx.
  rewrite Forall_forall in Ha. apply Ha. now apply in_rev.
Qed.

End PairOrder.

(** ** Computations *)

Lemma bind_ret {A B} (a : A) (f : A -> M B) : bind (ret a) f = f a.
Proof. unfold bind, ret. now destruct (f a). Qed.

Lemma bind_emit {B} (e : event) (k : M B) :
  bind (emit e) (fun _ => k) = (e :: fst k, snd k).
Proof. unfold bind, emit. now destruct k. Qed.

Lemma vec_at_nth {A} (v : list A) (n : nat) (a : A) :
  nth_error v n = Some a -> vec_at v (Z.of_nat n) = ret a.
Proof.
  intros H. unfold vec_at.
  destruct (Z.ltb_spec (Z.of_nat n) 0); [lia|].
  now rewrite Nat2Z.id, H.
Qed.

Lemma bind_returns {A B} (t : list event) (a : A) (f g : A -> M B) :
  f a = g a -> bind (t, Returns a) f = bind (t, Returns a) g.
Proof. unfold bind. now intros ->. Qed.

Lemma bind_ext {A B} (m : M A) (f g : A -> M B) :
  (forall a, f a = g a) -> bind m f = bind m g.
Proof.
  intros H. destruct m as [t [a | s | e |]]; try reflexivity.
  apply bind_returns, H.
Qed.

(** ** Locating the target *)

Lemma find_target_index_from_first (target : string) (filenames : list string) (i : Z) :
  find_target_index_from target filenames i =
  match first_index target filenames with
  | Some k => to_int (i + Z.of_nat k)
  | None => -1
  end.
Proof.
  revert i. induction filenames as [|f rest IH]; intros i; simpl; [reflexivity|].
  destruct (String.eqb f target).
  - now rewrite Z.add_0_r.
  - rewrite IH. destruct (first_index target rest) as [k|]; simpl; [|reflexivity].
    f_equal. lia.
Qed.

Lemma first_index_none (target : string) (filenames : list string) :
  first_index target filenames = None <-> ~ In target filenames.
Proof.
  induction filenames as [|f rest IH]; simpl.
  - tauto.
  - destruct (String.eqb_spec f target) as [Heq | Hne].
    + split; [discriminate | intros H; exfalso; apply H; now left].
    + destruct (first_index target rest); simpl.
      * split; [discriminate|]. intros H. exfalso.
        destruct IH as [_ IH]. discriminate IH. tauto.
      * split; [|reflexivity]. intros _ [H | H]; [congruence|].
        now apply IH.
Qed.

Lemma first_index_some (target : string) (filenames : list string) (k : nat) :
  first_index target filenames = Some k ->
  nth_error filenames k = Some target /\
  forall j, (j < k)%nat -> nth_error filenames j <> Some target.
Proof.
  revert k. induction filenames as [|f rest IH]; intros k; simpl; [discriminate|].
  destruct (String.eqb_spec f target) as [Heq | Hne].
  - intros [= <-]. split; [now subst | intros j Hj; lia].
  - destruct (first_index target rest) as [k'|]; simpl; [|discriminate].
    intros [= <-]. destruct (IH k' eq_refl) as [Hk Hbefore].
    split; [assumption|]. intros [|j] Hj; simpl.
    + congruence.
    + apply Hbefore. lia.
Qed.

Lemma first_index_in (target : string) (filenames : list string) :
  In target filenames -> exists k, first_index target filenames = Some k.
Proof.
  intros Hin. destruct (first_index target filenames) as [k|] eqn:H.
  - now exists k.
  - apply first_index_none in H. contradiction.
Qed.

(** The target is found at its first position. *)
Lemma find_target_index_found (target : string) (filenames : list string) (k : nat) :
  Z.of_nat (List.length filenames) <= 2 ^ 31 ->
  first_index target filenames = Some k ->
  find_target_index target filenames = Z.of_nat k.
Proof.
  intros Hlen Hk. unfold find_target_index.
  rewrite find_target_index_from_first, Hk. simpl.
  apply to_int_small. unfold INT_MAX.
  apply first_index_some in Hk. destruct Hk as [Hk _].
  assert (k < List.length filenames)%nat.
  { apply nth_error_Some. congruence. }
  lia.
Qed.

Lemma find_target_index_absent (target : string) (filenames : list string) :
  ~ In target filenames -> find_target_index target filenames = -1.
Proof.
  intros H. apply first_index_none in H.
  unfold find_target_index. now rewrite find_target_index_from_first, H.
Qed.

(** ** The entries that are scored *)

Section Candidates.
Context {P : Platform}.

Lemma enum_from_in {A} (rows : list A) (i j : Z) (row : A) :
  In (j, row) (enum_from i rows) <->
  exists n, j = i + Z.of_nat n /\ nth_error rows n = Some row.
Proof.
  revert i. induction rows as [|r rows IH]; intros i; simpl.
  - split; [tauto|]. intros [[|n] [_ H]]; discriminate.
  - rewrite IH. split.
    + intros [[= <- <-] | [n [-> Hn]]].
      * exists O. split; [lia | reflexivity].
      * exists (S n). split; [lia | assumption].
    + intros [[|n] [-> Hn]]; simpl in Hn.
      * left. injection Hn as ->. f_equal. lia.
      * right. exists n. split; [lia | assumption].
Qed.

Lemma enum_from_indices {A} (rows : list A) (i : Z) :
  StronglySorted Z.lt (map fst (enum_from i rows)).
Proof.
  revert i. induction rows as [|r rows IH]; intros i; simpl; constructor.
  - apply IH.
  - apply Forall_forall. intros j Hj.
    apply in_map_iff in Hj. destruct Hj as [[j' row] [<- Hin]].
    apply enum_from_in in Hin. destruct Hin as [n [-> _]]. simpl. lia.
Qed.

Lemma strongly_sorted_filter {A} (R : A -> A -> Prop) (f : A -> bool) (l : list A) :
  StronglySorted R l -> StronglySorted R (filter f l).
Proof.
  induction 1 as [|a l Hs IH Ha]; simpl; [constructor|].
  destruct (f a); [|assumption].
  constructor; [assumption|].
  apply Forall_forall. intros x Hx. apply filter_In in Hx.
  rewrite Forall_forall in Ha. now apply Ha.
Qed.

Lemma map_fst_candidates (t : Z) (rows : list feature) (i : Z) :
  map fst (candidates_from t rows i) =
  filter (fun j => negb (j =? t)) (map fst (enum_from i rows)).
Proof.
  unfold candidates_from.
  induction (enum_from i rows) as [|[j row] l IH]; simpl; [reflexivity|].
  destruct (j =? t); simpl; now rewrite IH.
Qed.

Lemma candidates_indices (t : Z) (rows : list feature) (i : Z) :
  StronglySorted Z.lt (map fst (candidates_from t rows i)).
Proof.
  rewrite map_fst_candidates. apply strongly_sorted_filter, enum_from_indices.
Qed.

Lemma candidates_in (t : Z) (data : list feature) (j : Z) (row : feature) :
  In (j, row) (candidates t data) <->
  exists n, j = Z.of_nat n /\ j <> t /\ nth_error data n = Some row.
Proof.
  unfold candidates, candidates_from. rewrite filter_In, enum_from_in. simpl.
  rewrite negb_true_iff, Z.eqb_neq.
  split.
  - intros [[n [Hj Hn]] Hne]. exists n. repeat split; [lia | assumption | assumption].
  - intros [n [Hj [Hne Hn]]]. split; [|assumption]. exists n. split; [lia | assumption].
Qed.

Lemma strongly_sorted_lt_nodup (l : list Z) : StronglySorted Z.lt l -> NoDup l.
Proof.
  induction 1 as [|a l Hs IH Ha]; constructor; [|assumption].
  intros Hin. rewrite Forall_forall in Ha. specialize (Ha a Hin). lia.
Qed.

End Candidates.

(** ** The matchers in closed form *)

Section Ranking.
Context {P : Platform}.
Variable std_sort : list scored -> list scored.

Lemma find_topN_matches_topN (m : metric) :
  find_topN_matches std_sort m = topN std_sort (helper_of m) (descending m).
Proof. destruct m; reflexivity. Qed.

(** Step 2 scores the candidates in order and stops at the first failure. *)
Lemma score_loop_spec (h : helper) (tv : feature) (t : Z) (rows : list feature)
    (i : Z) (acc : list scored) :
  score_loop h tv t rows i acc =
  (scored_events h tv (candidates_from (to_size_t t) rows i),
   match score_list h tv (candidates_from (to_size_t t) rows i) with
   | inr ps => Returns (acc ++ ps)
   | inl e => Throws e
   end).
Proof.
  revert i acc. unfold candidates_from.
  induction rows as [|row rows IH]; intros i acc; simpl.
  - unfold ret. now rewrite app_nil_r.
  - destruct (i =? to_size_t t); simpl; [apply IH|].
    unfold call. rewrite bind_emit.
    destruct (calculate h row tv) as [e | d]; simpl; [reflexivity|].
    rewrite IH.
    destruct (score_list h tv _) as [e | ps]; simpl; [reflexivity|].
    now rewrite <- app_assoc.
Qed.

(** Step 4 copies the names of the first [N - i] matches. *)
Lemma output_loop_spec (filenames : list string) (N : Z) (rest : list scored)
    (i : Z) (output : list string) :
  Forall (fun p => 0 <= snd p < Z.of_nat (List.length filenames)) rest ->
  output_loop filenames N rest i output =
  ret (output ++ names filenames (firstn (Z.to_nat (N - i)) rest)).
Proof.
  revert i output. induction rest as [|[d j] rest IH]; intros i output Hall; simpl.
  - rewrite firstn_nil. simpl. now rewrite app_nil_r.
  - inversion Hall as [|? ? Hj Hrest]; subst. simpl in Hj.
    destruct (Z.ltb_spec i N) as [Hlt | Hge].
    + replace (Z.to_nat (N - i)) with (S (Z.to_nat (N - (i + 1)))) by lia.
      simpl.
      assert (Hnth : nth_error filenames (Z.to_nat j) = Some (name_at filenames j)).
      { unfold name_at. apply nth_error_nth'. lia. }
      replace j with (Z.of_nat (Z.to_nat j)) at 1 by lia.
      rewrite (vec_at_nth _ _ _ Hnth), bind_ret, IH by assumption.
      now rewrite <- app_assoc.
    + replace (Z.to_nat (N - i)) with O by lia. simpl. now rewrite app_nil_r.
Qed.

(** What [score_list] returns, entry by entry. *)
Lemma score_list_entries (h : helper) (tv : feature) (cs : list (Z * feature))
    (ps : list scored) :
  score_list h tv cs = inr ps ->
  Forall2 (fun c p => snd p = to_int (fst c) /\ calculate h (snd c) tv = inr (fst p))
    cs ps.
Proof.
  revert ps. induction cs as [|[j row] cs IH]; intros ps; simpl.
  - intros [= <-]. constructor.
  - destruct (calculate h row tv) as [e | d] eqn:Hd; [discriminate|].
    destruct (score_list h tv cs) as [e | ps']; [discriminate|].
    intros [= <-]. constructor; [now split | now apply IH].
Qed.

Lemma score_list_total (h : helper) (tv : feature) (cs : list (Z * feature)) :
  Forall (fun c => exists d, calculate h (snd c) tv = inr d) cs ->
  exists ps, score_list h tv cs = inr ps.
Proof.
  induction 1 as [|[j row] cs [d Hd] Hall [ps IH]]; simpl.
  - now exists [].
  - simpl in Hd. rewrite Hd, IH. now eexists.
Qed.

Lemma score_list_fails (h : helper) (tv : feature) (cs : list (Z * feature))
    (e : exn) :
  score_list h tv cs = inl e ->
  exists c, In c cs /\ calculate h (snd c) tv = inl e.
Proof.
  induction cs as [|[j row] cs IH]; simpl; [discriminate|].
  destruct (calculate h row tv) as [e' | d] eqn:Hd.
  - intros [= <-]. exists (j, row). split; [now left | assumption].
  - destruct (score_list h tv cs) as [e' | ps]; [|discriminate].
    intros [= <-]. destruct (IH eq_refl) as [c [Hin Hc]].
    exists c. split; [now right | assumption].
Qed.

Lemma scored_events_all (h : helper) (tv : feature) (cs : list (Z * feature))
    (ps : list scored) :
  score_list h tv cs = inr ps ->
  scored_events h tv cs = map (fun c => Scored h (fst c)) cs.
Proof.
  revert ps. induction cs as [|[j row] cs IH]; intros ps; simpl; [reflexivity|].
  destruct (calculate h row tv) as [e | d]; [discriminate|].
  destruct (score_list h tv cs) as [e | ps'] eqn:H; [discriminate|].
  intros _. f_equal. now apply IH with ps'.
Qed.

Lemma scored_events_sub (h : helper) (tv : feature) (cs : list (Z * feature))
    (ev : event) :
  In ev (scored_events h tv cs) -> exists c, In c cs /\ ev = Scored h (fst c).
Proof.
  induction cs as [|[j row] cs IH]; simpl; [tauto|].
  intros [<- | Hin].
  - exists (j, row). split; [now left | reflexivity].
  - destruct (calculate h row tv); [destruct Hin|].
    destruct (IH Hin) as [c [Hc ->]]. exists c. split; [now right | reflexivity].
Qed.

End Ranking.

Section ClosedForm.
Context {P : Platform}.
Variable std_sort : list scored -> list scored.

Lemma candidates_length (t : Z) (rows : list feature) (i : Z) :
  List.length (candidates_from t rows i) =
  (List.length rows -
   (if Z.leb i t && Z.ltb t (i + Z.of_nat (List.length rows)) then 1 else 0))%nat.
Proof.
  revert i. unfold candidates_from.
  induction rows as [|row rows IH]; intros i; [reflexivity|].
  cbn [enum_from filter fst]. specialize (IH (i + 1)).
  destruct (Z.eqb_spec i t) as [Heq | Hne]; cbn [negb List.length];
    rewrite IH;
    destruct (Z.leb_spec (i + 1) t), (Z.leb_spec i t),
      (Z.ltb_spec t (i + 1 + Z.of_nat (List.length rows))),
      (Z.ltb_spec t (i + Z.of_nat (S (List.length rows))));
    cbn [andb]; lia.
Qed.

(** The indices of the scores are the indices of the candidates. *)
Lemma score_list_indices (h : helper) (tv : feature) (t : Z) (data : list feature)
    (ps : list scored) :
  Z.of_nat (List.length data) <= 2 ^ 31 ->
  score_list h tv (candidates t data) = inr ps ->
  map snd ps = map fst (candidates t data).
Proof.
  intros Hlen Hps. apply score_list_entries in Hps.
  assert (Hin : forall c, In c (candidates t data) -> to_int (fst c) = fst c).
  { intros [j row] Hc. apply candidates_in in Hc.
    destruct Hc as [n [-> [_ Hn]]]. simpl.
    assert (n < List.length data)%nat by (apply nth_error_Some; congruence).
    apply to_int_small. unfold INT_MAX. lia. }
  induction Hps as [|c p cs ps' [Hc _] _ IH]; simpl; [reflexivity|].
  rewrite Hc, Hin by now left. f_equal. apply IH.
  intros c' Hc'. apply Hin. now right.
Qed.

Lemma topN_scoring (h : helper) (desc : bool) (target : string)
    (filenames : list string) (data : list feature) (N : Z)
    (output : list string) (k : nat) :
  well_formed filenames data ->
  first_index target filenames = Some k ->
  exists tv, nth_error data k = Some tv /\
  topN std_sort h desc target filenames data N output =
  bind (scored_events h tv (candidates (Z.of_nat k) data),
        match score_list h tv (candidates (Z.of_nat k) data) with
        | inr ps => Returns ps
        | inl e => Throws e
        end)
       (fun distances =>
          output <- output_loop filenames N (arrange std_sort desc distances) 0 output;;
          ret (0, output)).
Proof.
  intros [Hlen Hmax] Hk.
  assert (Hkn : (k < List.length filenames)%nat).
  { apply first_index_some in Hk. apply nth_error_Some.
    destruct Hk as [Hk _]. congruence. }
  destruct (nth_error data k) as [tv|] eqn:Htv.
  2:{ apply nth_error_None in Htv. lia. }
  exists tv. split; [reflexivity|].
  unfold topN. rewrite (find_target_index_found target filenames k) by (assumption || lia).
  destruct (Z.eqb_spec (Z.of_nat k) (-1)); [lia|].
  rewrite to_size_t_small by (unfold INT_MAX; lia).
  rewrite (vec_at_nth _ _ _ Htv), bind_ret, score_loop_spec.
  rewrite to_size_t_small by (unfold INT_MAX; lia).
  reflexivity.
Qed.

Hypothesis std_sort_ok : sort_contract std_sort.

Lemma arrange_perm (desc : bool) (ps : list scored) :
  Permutation ps (arrange std_sort desc ps).
Proof.
  unfold arrange, sort_reverse, sort_forward. destruct desc.
  - rewrite <- Permutation_rev.
    destruct (std_sort_ok (rev ps)) as [Hp _].
    rewrite <- Hp. apply Permutation_rev.
  - apply std_sort_ok.
Qed.

Lemma arrange_sorted (desc : bool) (ps : list scored) :
  if desc then descending_sorted (arrange std_sort desc ps)
  else ascending_sorted (arrange std_sort desc ps).
Proof.
  unfold arrange, sort_reverse, sort_forward. destruct desc.
  - apply ascending_rev, std_sort_ok.
  - apply std_sort_ok.
Qed.

(** The closed form of a matcher on a well-formed data set that holds the
    target: the helper calls it makes, and what it returns. *)
Lemma topN_closed (h : helper) (desc : bool) (target : string)
    (filenames : list string) (data : list feature) (N : Z)
    (output : list string) (k : nat) :
  well_formed filenames data ->
  first_index target filenames = Some k ->
  exists tv, nth_error data k = Some tv /\
  topN std_sort h desc target filenames data N output =
  (scored_events h tv (candidates (Z.of_nat k) data),
   match score_list h tv (candidates (Z.of_nat k) data) with
   | inr ps =>
       Returns (0, output ++ names filenames (firstn (Z.to_nat N) (arrange std_sort desc ps)))
   | inl e => Throws e
   end).
Proof.
  intros Hwf Hk.
  destruct (topN_scoring h desc target filenames data N output k Hwf Hk)
    as [tv [Htv Heq]].
  exists tv. split; [assumption|]. rewrite Heq. clear Heq.
  destruct (score_list h tv (candidates (Z.of_nat k) data)) as [e | ps] eqn:Hps;
    [reflexivity|].
  unfold bind at 1.
  rewrite output_loop_spec.
  - rewrite bind_ret. unfold ret. rewrite app_nil_r, Z.sub_0_r. reflexivity.
  - destruct Hwf as [Hlen Hmax].
    apply Forall_forall. intros p Hp.
    apply (Permutation_in _ (Permutation_sym (arrange_perm desc ps))) in Hp.
    apply (in_map snd) in Hp.
    rewrite (score_list_indices _ _ _ _ _ Hmax Hps) in Hp.
    apply in_map_iff in Hp. destruct Hp as [[j row] [Hj Hin]].
    apply candidates_in in Hin. destruct Hin as [n [-> [_ Hn]]].
    simpl in Hj. rewrite <- Hj.
    assert (n < List.length data)%nat by (apply nth_error_Some; congruence).
    lia.
Qed.

End ClosedForm.

(** ** Facts about sorted sequences *)

Lemma in_firstn {A} (n : nat) (l : list A) (x : A) :
  In x (firstn n l) -> In x l.
Proof.
  revert n. induction l as [|a l IH]; intros [|n]; simpl; try tauto.
  intros [H | H]; [now left | right; now apply IH with n].
Qed.

Lemma strongly_sorted_firstn {A} (R : A -> A -> Prop) (n : nat) (l : list A) :
  StronglySorted R l -> StronglySorted R (firstn n l).
Proof.
  intros Hs. revert n. induction Hs as [|a l Hs IH Ha]; intros [|n]; simpl;
    try constructor.
  - apply IH.
  - apply Forall_forall. intros x Hx. apply in_firstn in Hx.
    rewrite Forall_forall in Ha. now apply Ha.
Qed.

Lemma strongly_sorted_nth {A} (R : A -> A -> Prop) (l : list A) (x y : nat) (p q : A) :
  StronglySorted R l -> (x < y)%nat ->
  nth_error l x = Some p -> nth_error l y = Some q -> R p q.
Proof.
  intros Hs. revert x y. induction Hs as [|a l Hs IH Ha]; intros x y Hxy Hx Hy.
  - destruct x; discriminate.
  - destruct y as [|y]; [lia|]. simpl in Hy.
    destruct x as [|x]; simpl in Hx.
    + injection Hx as ->. rewrite Forall_forall in Ha.
      apply Ha. now apply nth_error_In with y.
    + apply IH with x y; [lia | assumption | assumption].
Qed.

Lemma forall2_in_right {A B} (R : A -> B -> Prop) (l : list A) (l' : list B) (b : B) :
  Forall2 R l l' -> In b l' -> exists a, In a l /\ R a b.
Proof.
  induction 1 as [|a b' l l' Hab Hall IH]; simpl; [tauto|].
  intros [<- | Hin].
  - exists a. split; [now left | assumption].
  - destruct (IH Hin) as [a' [Ha' HR]]. exists a'. split; [now right | assumption].
Qed.

(** ** The complete ranking *)

Section RankingFacts.
Context {P : Platform}.
Variable std_sort : list scored -> list scored.
Hypothesis std_sort_ok : sort_contract std_sort.

Lemma all_scorable_total (h : helper) (data : list feature) (k : nat) (tv : feature) :
  all_scorable h data k -> nth_error data k = Some tv ->
  exists ps, score_list h tv (candidates (Z.of_nat k) data) = inr ps.
Proof.
  intros Hall Htv. apply score_list_total.
  apply Forall_forall. intros [j row] Hc.
  apply candidates_in in Hc. destruct Hc as [n [-> [Hne Hn]]]. simpl.
  apply (Hall n row tv); [lia | assumption | assumption].
Qed.

Lemma ranking_facts (h : helper) (desc : bool) (data : list feature) (k : nat)
    (tv : feature) (ps : list scored) :
  Z.of_nat (List.length data) <= 2 ^ 31 ->
  nth_error data k = Some tv ->
  score_list h tv (candidates (Z.of_nat k) data) = inr ps ->
  Permutation (map snd (arrange std_sort desc ps))
    (map fst (candidates (Z.of_nat k) data)) /\
  Forall (scored_entry h data k) (arrange std_sort desc ps) /\
  NoDup (map snd (arrange std_sort desc ps)) /\
  List.length (arrange std_sort desc ps) = (List.length data - 1)%nat.
Proof.
  intros Hmax Htv Hps.
  pose proof (arrange_perm std_sort std_sort_ok desc ps) as Hperm.
  pose proof (score_list_indices h tv _ data ps Hmax Hps) as Hidx.
  assert (Hk : (k < List.length data)%nat) by (apply nth_error_Some; congruence).
  repeat split.
  - rewrite <- Hidx. apply Permutation_map. now symmetry.
  - apply Forall_forall. intros p Hp.
    apply (Permutation_in _ (Permutation_sym Hperm)) in Hp.
    destruct (forall2_in_right _ _ _ _ (score_list_entries h tv _ ps Hps) Hp)
      as [[j row] [Hc [Hsnd Hcalc]]].
    apply candidates_in in Hc. destruct Hc as [n [-> [Hne Hn]]].
    simpl in Hsnd, Hcalc.
    assert (n < List.length data)%nat by (apply nth_error_Some; congruence).
    rewrite to_int_small in Hsnd by (unfold INT_MAX; lia).
    exists n, row, tv. repeat split; try assumption. lia.
  - apply Permutation_NoDup with (map snd ps); [now apply Permutation_map|].
    rewrite Hidx. apply strongly_sorted_lt_nodup, candidates_indices.
  - rewrite <- (Permutation_length Hperm).
    replace (List.length ps) with (List.length (map snd ps)) by apply length_map.
    rewrite Hidx, length_map.
    unfold candidates. rewrite candidates_length.
    destruct (Z.leb_spec 0 (Z.of_nat k)); [|lia].
    destruct (Z.ltb_spec (Z.of_nat k) (0 + Z.of_nat (List.length data))); [|lia].
    reflexivity.
Qed.

(** The events of a run in which every candidate has a score. *)
Lemma scored_events_in (h : helper) (data : list feature) (k : nat)
    (tv : feature) (ps : list scored) (j : Z) :
  score_list h tv (candidates (Z.of_nat k) data) = inr ps ->
  In (Scored h j) (scored_events h tv (candidates (Z.of_nat k) data)) <->
  exists n row, j = Z.of_nat n /\ n <> k /\ nth_error data n = Some row.
Proof.
  intros Hps. rewrite (scored_events_all h tv _ ps Hps), in_map_iff. split.
  - intros [[j' row] [[= ->] Hc]]. apply candidates_in in Hc.
    destruct Hc as [n [-> [Hne Hn]]]. exists n, row. repeat split; [lia | assumption].
  - intros [n [row [-> [Hne Hn]]]]. exists (Z.of_nat n, row). split; [reflexivity|].
    apply candidates_in. exists n. repeat split; [lia | assumption].
Qed.

End RankingFacts.

(** ** Order within the complete ranking *)

Lemma nth_error_firstn_some {A} (n : nat) (l : list A) (x : nat) (a : A) :
  nth_error (firstn n l) x = Some a -> nth_error l x = Some a.
Proof.
  revert n x. induction l as [|b l IH]; intros [|n] [|x]; simpl; try discriminate.
  - trivial.
  - apply IH.
Qed.

Lemma firstn_min_length {A} (n : nat) (l : list A) :
  firstn (Nat.min n (List.length l)) l = firstn n l.
Proof.
  destruct (Nat.le_ge_cases n (List.length l)) as [H | H].
  - now rewrite Nat.min_l.
  - rewrite Nat.min_r by assumption. now rewrite !firstn_all2.
Qed.

Section Order.
Context {P : Platform}.

Lemma score_order_sorted (desc : bool) (all : list scored) :
  (if desc then descending_sorted all else ascending_sorted all) ->
  score_order desc all.
Proof.
  intros Hs i a b Ha Hb. destruct desc.
  - pose proof (strongly_sorted_nth _ all i (S i) a b Hs (Nat.lt_succ_diag_r i) Ha Hb) as H.
    simpl in H. unfold pair_lt in H. now apply orb_false_iff in H.
  - pose proof (strongly_sorted_nth _ all i (S i) a b Hs (Nat.lt_succ_diag_r i) Ha Hb) as H.
    simpl in H. unfold pair_lt in H. now apply orb_false_iff in H.
Qed.

Lemma tie_order_sorted (desc : bool) (all : list scored) :
  (if desc then descending_sorted all else ascending_sorted all) ->
  NoDup (map snd all) ->
  tie_order desc all.
Proof.
  intros Hs Hnd x y p q Hxy Hp Hq [Hpq Hqp].
  assert (Hne : snd p <> snd q).
  { intros Heq.
    assert (Hx : (x < List.length (map snd all))%nat).
    { rewrite length_map. apply nth_error_Some. unfold scored in *. congruence. }
    rewrite NoDup_nth_error in Hnd. specialize (Hnd x y Hx).
    unfold scored in *.
    rewrite !nth_error_map, Hp, Hq in Hnd. simpl in Hnd.
    rewrite Heq in Hnd. specialize (Hnd eq_refl). lia. }
  destruct desc.
  - pose proof (strongly_sorted_nth _ all x y p q Hs Hxy Hp Hq) as H.
    simpl in H. unfold pair_lt in H. rewrite Hpq, Hqp in H. simpl in H.
    apply Z.ltb_ge in H. lia.
  - pose proof (strongly_sorted_nth _ all x y p q Hs Hxy Hp Hq) as H.
    simpl in H. unfold pair_lt in H. rewrite Hpq, Hqp in H. simpl in H.
    apply Z.ltb_ge in H. lia.
Qed.

Lemma score_order_firstn (desc : bool) (n : nat) (all : list scored) :
  score_order desc all -> score_order desc (firstn n all).
Proof.
  intros H i a b Ha Hb. apply (H i); now apply nth_error_firstn_some with n.
Qed.

Lemma tie_order_firstn (desc : bool) (n : nat) (all : list scored) :
  tie_order desc all -> tie_order desc (firstn n all).
Proof.
  intros H x y p q Hxy Hp Hq. apply (H x y); try assumption;
    now apply nth_error_firstn_some with n.
Qed.

End Order.

(** ** The fixture meets the assumptions *)

Lemma fixture_float_order : FloatOrder Fixture.platform.
Proof.
  split; simpl.
  - apply Z.ltb_irrefl.
  - intros x y z H1 H2. apply Z.ltb_lt in H1, H2. apply Z.ltb_lt. lia.
  - intros x y z H. apply Z.ltb_lt in H.
    destruct (Z.ltb_spec x y); [now left|]. right. apply Z.ltb_lt. lia.
Qed.

Lemma fixture_sort_contract : @sort_contract Fixture.platform Fixture.sort.
Proof. apply (@isort_contract Fixture.platform fixture_float_order). Qed.

Lemma fixture_sort_backwards_contract :
  @sort_contract Fixture.platform Fixture.sort_backwards.
Proof.
  intros l. unfold Fixture.sort_backwards. split.
  - rewrite <- (@isort_perm Fixture.platform). apply Permutation_rev.
  - apply (@isort_sorted Fixture.platform fixture_float_order).
Qed.

Lemma fixture_all_scorable (h : helper) (data : list (list Z)) (k n : nat) :
  Forall (fun row => List.length row = n) data ->
  @all_scorable Fixture.platform h data k.
Proof.
  intros Hall j row tv _ Hrow Htv.
  rewrite Forall_forall in Hall.
  pose proof (Hall row (nth_error_In _ _ Hrow)) as H1.
  pose proof (Hall tv (nth_error_In _ _ Htv)) as H2.
  simpl. unfold checked_metric. rewrite H1, H2, Nat.eqb_refl. now eexists.
Qed.

(** ** The run of a matcher that finds the target *)

Section Runs.
Context {P : Platform}.
Variable std_sort : list scored -> list scored.
Hypothesis std_sort_ok : sort_contract std_sort.

(** On a well-formed data set that holds the target and whose entries all
    have a score, a matcher calls its helper on every candidate and returns
    the names of the first [N] of the complete ranking. *)
Lemma matcher_run (m : metric) (target : string) (filenames : list string)
    (data : list feature) (output : list string) (k : nat) :
  well_formed filenames data ->
  first_index target filenames = Some k ->
  all_scorable (helper_of m) data k ->
  exists tv ps,
    nth_error data k = Some tv /\
    score_list (helper_of m) tv (candidates (Z.of_nat k) data) = inr ps /\
    forall N,
      find_topN_matches std_sort m target filenames data N output =
      (scored_events (helper_of m) tv (candidates (Z.of_nat k) data),
       Returns (0, output ++
          names filenames (firstn (Z.to_nat N) (arrange std_sort (descending m) ps)))).
Proof.
  intros Hwf Hk Hall.
  destruct (topN_closed std_sort std_sort_ok (helper_of m) (descending m)
              target filenames data 0 output k Hwf Hk) as [tv [Htv _]].
  destruct (all_scorable_total (helper_of m) data k tv Hall Htv) as [ps Hps].
  exists tv, ps. repeat split; try assumption.
  intros N. rewrite find_topN_matches_topN.
  destruct (topN_closed std_sort std_sort_ok (helper_of m) (descending m)
              target filenames data N output k Hwf Hk) as [tv' [Htv' Heq]].
  assert (tv' = tv) by congruence. subst tv'.
  now rewrite Heq, Hps.
Qed.

End Runs.

(** * The claims *)

Ltac fixture_well_formed := split; [reflexivity | simpl; lia].
Ltac fixture_scorable n :=
  apply (fixture_all_scorable _ _ _ n); repeat constructor.

Section Claims.
Context {P : Platform}.
Variable std_sort : list scored -> list scored.
Hypothesis std_sort_ok : sort_contract std_sort.

(** C7: when the query id is not among the file names of the data set,
    every matcher fails: it writes "Target image not found!" to the error
    stream and returns -1 with the output untouched, and it does so before
    any scoring helper is called (the trace holds no other event). *)
Theorem query_not_found_short_circuits (m : metric) (target : string)
    (filenames : list string) (data : list feature) (N : Z)
    (output : list string) :
  ~ In target filenames ->
  find_topN_matches std_sort m target filenames data N output =
  ([Stderr (line "Target image not found!")], Returns (-1, output)).
Proof.
  intros Habsent. rewrite find_topN_matches_topN. unfold topN.
  now rewrite (find_target_index_absent _ _ Habsent).
Qed.

(** C5: the scores of the returned matches are sorted in the direction of
    the metric: for ssd, multi-hist and texture-color no match has a score
    greater than its successor's, for rgb-hist (histogram intersection) no
    match has a score smaller than its successor's. *)
Theorem result_sorted_in_metric_direction (m : metric) (target : string)
    (filenames : list string) (data : list feature) (N : Z)
    (output : list string) (k : nat) :
  well_formed filenames data ->
  first_index target filenames = Some k ->
  all_scorable (helper_of m) data k ->
  exists tr ranked,
    find_topN_matches std_sort m target filenames data N output =
      (tr, Returns (0, output ++ names filenames ranked)) /\
    Forall (scored_entry (helper_of m) data k) ranked /\
    forall i a b,
      nth_error ranked i = Some a -> nth_error ranked (S i) = Some b ->
      match m with
      | rgb_hist => flt (fst a) (fst b) = false
      | ssd | multi_hist | texture_color => flt (fst b) (fst a) = false
      end.
Proof.
  intros Hwf Hk Hall.
  destruct (matcher_run std_sort std_sort_ok m target filenames data output k
              Hwf Hk Hall) as [tv [ps [Htv [Hps Hrun]]]].
  destruct Hwf as [Hlen Hmax].
  destruct (ranking_facts std_sort std_sort_ok (helper_of m) (descending m)
              data k tv ps Hmax Htv Hps) as [_ [Hentries _]].
  eexists. exists (firstn (Z.to_nat N) (arrange std_sort (descending m) ps)).
  split; [apply Hrun|]. split.
  - apply Forall_forall. intros p Hp. apply in_firstn in Hp.
    rewrite Forall_forall in Hentries. now apply Hentries.
  - intros i a b Ha Hb.
    pose proof (score_order_firstn _ (Z.to_nat N) _
                  (score_order_sorted _ _
                     (arrange_sorted std_sort std_sort_ok (descending m) ps))
                  i a b Ha Hb) as H.
    destruct m; exact H.
Qed.

(** C2, as amended: matches of exactly equal score appear in the order of
    their positions in the data set for the ascending metrics (ssd,
    multi-hist, texture-color) and in the opposite order for the descending
    metric (rgb-hist). *)
Theorem tie_order_follows_sort_direction (m : metric) (target : string)
    (filenames : list string) (data : list feature) (N : Z)
    (output : list string) (k : nat) :
  well_formed filenames data ->
  first_index target filenames = Some k ->
  all_scorable (helper_of m) data k ->
  exists tr ranked,
    find_topN_matches std_sort m target filenames data N output =
      (tr, Returns (0, output ++ names filenames ranked)) /\
    Forall (scored_entry (helper_of m) data k) ranked /\
    tie_order (descending m) ranked.
Proof.
  intros Hwf Hk Hall.
  destruct (matcher_run std_sort std_sort_ok m target filenames data output k
              Hwf Hk Hall) as [tv [ps [Htv [Hps Hrun]]]].
  destruct Hwf as [Hlen Hmax].
  destruct (ranking_facts std_sort std_sort_ok (helper_of m) (descending m)
              data k tv ps Hmax Htv Hps) as [_ [Hentries [Hnd _]]].
  eexists. exists (firstn (Z.to_nat N) (arrange std_sort (descending m) ps)).
  split; [apply Hrun|]. split.
  - apply Forall_forall. intros p Hp. apply in_firstn in Hp.
    rewrite Forall_forall in Hentries. now apply Hentries.
  - apply tie_order_firstn, tie_order_sorted; [|assumption].
    apply (arrange_sorted std_sort std_sort_ok).
Qed.

End Claims.

Lemma query_not_found_short_circuits_witness :
  ~ In "Z" (Fixture.names_of "features.csv") /\
  @find_topN_matches Fixture.platform Fixture.sort ssd "Z"
    (Fixture.names_of "features.csv") (Fixture.rows_of "features.csv") 2 [] =
  ([Stderr (line "Target image not found!")], Returns (-1, [])).
Proof.
  assert (H : ~ In "Z" (Fixture.names_of "features.csv")).
  { simpl. intros [H | [H | [H | []]]]; discriminate. }
  split; [exact H|].
  apply (@query_not_found_short_circuits Fixture.platform Fixture.sort ssd "Z"
           (Fixture.names_of "features.csv") (Fixture.rows_of "features.csv") 2 [] H).
Defined.

Lemma result_sorted_in_metric_direction_witness :
  exists tr ranked,
    @find_topN_matches Fixture.platform Fixture.sort rgb_hist "A"
      (Fixture.names_of "ties.csv") (Fixture.rows_of "ties.csv") 3 [] =
      (tr, Returns (0, [] ++ names (Fixture.names_of "ties.csv") ranked)) /\
    Forall (@scored_entry Fixture.platform calculate_histogramIntersection
              (Fixture.rows_of "ties.csv") 0) ranked /\
    forall i a b,
      nth_error ranked i = Some a -> nth_error ranked (S i) = Some b ->
      (fst a <? fst b) = false.
Proof.
  apply (@result_sorted_in_metric_direction Fixture.platform Fixture.sort
           fixture_sort_contract rgb_hist "A"
           (Fixture.names_of "ties.csv") (Fixture.rows_of "ties.csv") 3 [] 0%nat).
  - fixture_well_formed.
  - reflexivity.
  - fixture_scorable 2%nat.
Defined.

Lemma tie_order_follows_sort_direction_witness :
  exists tr ranked,
    @find_topN_matches Fixture.platform Fixture.sort rgb_hist "A"
      (Fixture.names_of "ties.csv") (Fixture.rows_of "ties.csv") 3 [] =
      (tr, Returns (0, [] ++ names (Fixture.names_of "ties.csv") ranked)) /\
    Forall (@scored_entry Fixture.platform calculate_histogramIntersection
              (Fixture.rows_of "ties.csv") 0) ranked /\
    @tie_order Fixture.platform true ranked.
Proof.
  apply (@tie_order_follows_sort_direction Fixture.platform Fixture.sort
           fixture_sort_contract rgb_hist "A"
           (Fixture.names_of "ties.csv") (Fixture.rows_of "ties.csv") 3 [] 0%nat).
  - fixture_well_formed.
  - reflexivity.
  - fixture_scorable 2%nat.
Defined.

(** C2 as stated fails for the descending metric: with "ties.csv" the
    entries B (index 1) and C (index 2) both score 9 against A under
    histogram intersection, and the matcher returns C before B. *)
Lemma tie_order_not_stable_for_rgb_hist :
  ~ (forall tr ranked,
       @find_topN_matches Fixture.platform Fixture.sort rgb_hist "A"
         (Fixture.names_of "ties.csv") (Fixture.rows_of "ties.csv") 3 [] =
         (tr, Returns (0, [] ++ names (Fixture.names_of "ties.csv") ranked)) ->
       Forall (@scored_entry Fixture.platform calculate_histogramIntersection
                 (Fixture.rows_of "ties.csv") 0) ranked ->
       @tie_order Fixture.platform false ranked).
Proof.
  intros H.
  specialize (H _ [(9, 2); (9, 1); (6, 3)] eq_refl).
  assert (Hentries : Forall (@scored_entry Fixture.platform
                               calculate_histogramIntersection
                               (Fixture.rows_of "ties.csv") 0)
                       [(9, 2); (9, 1); (6, 3)]).
  { repeat constructor.
    - exists 2%nat, [6; 4], [5; 5]. repeat split. discriminate.
    - exists 1%nat, [4; 6], [5; 5]. repeat split. discriminate.
    - exists 3%nat, [1; 9], [5; 5]. repeat split. discriminate. }
  specialize (H Hentries 0%nat 1%nat (9, 2) (9, 1) (Nat.lt_0_1) eq_refl eq_refl
                (conj eq_refl eq_refl)).
  simpl in H. lia.
Qed.

Section ClaimsOnExclusion.
Context {P : Platform}.
Variable std_sort : list scored -> list scored.
Hypothesis std_sort_ok : sort_contract std_sort.

(** C4, as amended: for a query id present in the data set, a matcher
    leaves out exactly the entry at the first index whose name equals the
    query (the exclusion is by index, not by name): every entry at another
    index is scored, the entry at that index is not, no match has that
    index, and the query's name is absent from the result when it occurs
    only once in the data set. *)
Theorem query_entry_excluded_by_index (m : metric) (target : string)
    (filenames : list string) (data : list feature) (N : Z)
    (output : list string) (k : nat) :
  well_formed filenames data ->
  first_index target filenames = Some k ->
  all_scorable (helper_of m) data k ->
  exists tr ranked,
    find_topN_matches std_sort m target filenames data N output =
      (tr, Returns (0, output ++ names filenames ranked)) /\
    Forall (scored_entry (helper_of m) data k) ranked /\
    Forall (fun p => snd p <> Z.of_nat k) ranked /\
    (forall n row, nth_error data n = Some row -> n <> k ->
       In (Scored (helper_of m) (Z.of_nat n)) tr) /\
    ~ In (Scored (helper_of m) (Z.of_nat k)) tr /\
    ((forall j, nth_error filenames j = Some target -> j = k) ->
     ~ In target (names filenames ranked)).
Proof.
  intros Hwf Hk Hall.
  destruct (matcher_run std_sort std_sort_ok m target filenames data output k
              Hwf Hk Hall) as [tv [ps [Htv [Hps Hrun]]]].
  destruct Hwf as [Hlen Hmax].
  destruct (ranking_facts std_sort std_sort_ok (helper_of m) (descending m)
              data k tv ps Hmax Htv Hps) as [_ [Hentries _]].
  assert (Hranked : Forall (scored_entry (helper_of m) data k)
                      (firstn (Z.to_nat N) (arrange std_sort (descending m) ps))).
  { apply Forall_forall. intros p Hp. apply in_firstn in Hp.
    rewrite Forall_forall in Hentries. now apply Hentries. }
  eexists. exists (firstn (Z.to_nat N) (arrange std_sort (descending m) ps)).
  split; [apply Hrun|]. split; [assumption|]. split; [|split; [|split]].
  - eapply Forall_impl; [|exact Hranked].
    intros p [j [row [tv' [Hj [Hne _]]]]]. lia.
  - intros n row Hn Hne.
    apply (scored_events_in (helper_of m) data k tv ps _ Hps).
    now exists n, row.
  - intros Hin.
    apply (scored_events_in (helper_of m) data k tv ps _ Hps) in Hin.
    destruct Hin as [n [row [Heq [Hne _]]]]. lia.
  - intros Honce Hin. unfold names in Hin.
    apply in_map_iff in Hin. destruct Hin as [p [Hname Hp]].
    rewrite Forall_forall in Hranked.
    destruct (Hranked p Hp) as [j [row [tv' [Hj [Hne [Hrow _]]]]]].
    apply Hne, Honce. rewrite <- Hname. unfold name_at.
    rewrite Hj, Nat2Z.id. apply nth_error_nth'.
    rewrite Hlen. apply nth_error_Some. congruence.
Qed.

(** C10: when several entries bear the query's name, only the first of
    them (in data set order) is left out of the scoring: every later entry
    with the query's own name is scored, and its name is in the result as
    soon as [N] reaches the number of scored entries. *)
Theorem later_duplicates_are_scored (m : metric) (target : string)
    (filenames : list string) (data : list feature) (N : Z)
    (output : list string) (k j : nat) :
  well_formed filenames data ->
  first_index target filenames = Some k ->
  all_scorable (helper_of m) data k ->
  nth_error filenames j = Some target ->
  j <> k ->
  (k < j)%nat /\
  exists tr out,
    find_topN_matches std_sort m target filenames data N output =
      (tr, Returns (0, output ++ out)) /\
    In (Scored (helper_of m) (Z.of_nat j)) tr /\
    ~ In (Scored (helper_of m) (Z.of_nat k)) tr /\
    (Z.of_nat (List.length data) - 1 <= N -> In target out).
Proof.
  intros Hwf Hk Hall Hj Hne.
  assert (Hkj : (k < j)%nat).
  { destruct (first_index_some _ _ _ Hk) as [_ Hbefore].
    destruct (Nat.lt_trichotomy j k) as [Hlt | [Heq | Hgt]]; [|lia|assumption].
    now specialize (Hbefore j Hlt). }
  split; [assumption|].
  destruct (matcher_run std_sort std_sort_ok m target filenames data output k
              Hwf Hk Hall) as [tv [ps [Htv [Hps Hrun]]]].
  destruct Hwf as [Hlen Hmax].
  destruct (ranking_facts std_sort std_sort_ok (helper_of m) (descending m)
              data k tv ps Hmax Htv Hps) as [Hperm [_ [_ Hcount]]].
  assert (Hjn : (j < List.length data)%nat).
  { rewrite <- Hlen. apply nth_error_Some. congruence. }
  destruct (nth_error data j) as [row|] eqn:Hrow.
  2:{ apply nth_error_None in Hrow. lia. }
  eexists. eexists. split; [apply Hrun|]. split; [|split].
  - apply (scored_events_in (helper_of m) data k tv ps _ Hps).
    now exists j, row.
  - intros Hin.
    apply (scored_events_in (helper_of m) data k tv ps _ Hps) in Hin.
    destruct Hin as [n [row' [Heq [Hne' _]]]]. lia.
  - intros HN. rewrite firstn_all2 by lia.
    assert (Hin : In (Z.of_nat j) (map snd (arrange std_sort (descending m) ps))).
    { apply (Permutation_in _ (Permutation_sym Hperm)).
      apply in_map_iff. exists (Z.of_nat j, row). split; [reflexivity|].
      apply candidates_in. exists j. repeat split; [lia | assumption]. }
    apply in_map_iff in Hin. destruct Hin as [p [Hp Hin]].
    unfold names. apply in_map_iff. exists p. split; [|assumption].
    unfold name_at. rewrite Hp, Nat2Z.id.
    now apply nth_error_nth.
Qed.

End ClaimsOnExclusion.

(** C4 as stated fails when the query's name occurs twice: with
    "twice.csv" (names A, B, A) the matcher for ssd returns the second A. *)
Lemma query_name_returned_when_duplicated :
  ~ (forall tr out,
       @find_topN_matches Fixture.platform Fixture.sort ssd "A"
         (Fixture.names_of "twice.csv") (Fixture.rows_of "twice.csv") 2 [] =
         (tr, Returns (0, out)) ->
       ~ In "A" out).
Proof.
  intros H. apply (H _ _ eq_refl). now left.
Qed.

Lemma query_entry_excluded_by_index_witness :
  exists tr ranked,
    @find_topN_matches Fixture.platform Fixture.sort ssd "A"
      (Fixture.names_of "features.csv") (Fixture.rows_of "features.csv") 1 [] =
      (tr, Returns (0, [] ++ names (Fixture.names_of "features.csv") ranked)) /\
    Forall (@scored_entry Fixture.platform calculate_ssd
              (Fixture.rows_of "features.csv") 0) ranked /\
    Forall (fun p => snd p <> 0) ranked /\
    (forall n row, nth_error (Fixture.rows_of "features.csv") n = Some row ->
       n <> 0%nat -> In (Scored calculate_ssd (Z.of_nat n)) tr) /\
    ~ In (Scored calculate_ssd 0) tr /\
    ((forall j, nth_error (Fixture.names_of "features.csv") j = Some "A" -> j = 0%nat) ->
     ~ In "A" (names (Fixture.names_of "features.csv") ranked)).
Proof.
  apply (@query_entry_excluded_by_index Fixture.platform Fixture.sort
           fixture_sort_contract ssd "A"
           (Fixture.names_of "features.csv") (Fixture.rows_of "features.csv")
           1 [] 0%nat).
  - fixture_well_formed.
  - reflexivity.
  - fixture_scorable 2%nat.
Defined.

Lemma later_duplicates_are_scored_witness :
  (0 < 2)%nat /\
  exists tr out,
    @find_topN_matches Fixture.platform Fixture.sort ssd "A"
      (Fixture.names_of "twice.csv") (Fixture.rows_of "twice.csv") 2 [] =
      (tr, Returns (0, [] ++ out)) /\
    In (Scored calculate_ssd 2) tr /\
    ~ In (Scored calculate_ssd 0) tr /\
    (Z.of_nat (List.length (Fixture.rows_of "twice.csv")) - 1 <= 2 -> In "A" out).
Proof.
  apply (@later_duplicates_are_scored Fixture.platform Fixture.sort
           fixture_sort_contract ssd "A"
           (Fixture.names_of "twice.csv") (Fixture.rows_of "twice.csv")
           2 [] 0%nat 2%nat).
  - fixture_well_formed.
  - reflexivity.
  - fixture_scorable 2%nat.
  - reflexivity.
  - discriminate.
Defined.

Section ClaimsOnTruncation.
Context {P : Platform}.
Variable std_sort : list scored -> list scored.
Hypothesis std_sort_ok : sort_contract std_sort.

(** C6: a successful run returns the names of exactly the first
    [min (N, count)] entries of the complete ranking, [count] being the
    number of scored entries (all entries but the query's). The complete
    ranking holds every scored entry exactly once (its indices are the
    indices of the candidates, without repetition), each with its score,
    in the order step 3 sorts them into. When [N] is at least [count] all
    of them are returned, and no error is raised; a data set whose only
    entry is the query gives an empty result and no error. *)
Theorem result_is_first_min_N (m : metric) (target : string)
    (filenames : list string) (data : list feature)
    (output : list string) (k : nat) :
  well_formed filenames data ->
  first_index target filenames = Some k ->
  all_scorable (helper_of m) data k ->
  exists tr all,
    List.length all = (List.length data - 1)%nat /\
    Permutation (map snd all) (map fst (candidates (Z.of_nat k) data)) /\
    NoDup (map snd all) /\
    Forall (scored_entry (helper_of m) data k) all /\
    (if descending m then descending_sorted all else ascending_sorted all) /\
    score_order (descending m) all /\
    forall N,
      find_topN_matches std_sort m target filenames data N output =
        (tr, Returns (0, output ++ names filenames
           (firstn (Z.to_nat (Z.min N (Z.of_nat (List.length all)))) all))) /\
      (Z.of_nat (List.length all) <= N ->
       find_topN_matches std_sort m target filenames data N output =
         (tr, Returns (0, output ++ names filenames all))) /\
      (List.length data = 1%nat ->
       find_topN_matches std_sort m target filenames data N output =
         ([], Returns (0, output))).
Proof.
  intros Hwf Hk Hall.
  destruct (matcher_run std_sort std_sort_ok m target filenames data output k
              Hwf Hk Hall) as [tv [ps [Htv [Hps Hrun]]]].
  destruct Hwf as [Hlen Hmax].
  destruct (ranking_facts std_sort std_sort_ok (helper_of m) (descending m)
              data k tv ps Hmax Htv Hps) as [Hperm [Hentries [Hnd Hcount]]].
  eexists. exists (arrange std_sort (descending m) ps).
  split; [assumption|]. split; [assumption|]. split; [assumption|].
  split; [assumption|]. split.
  { apply (arrange_sorted std_sort std_sort_ok). }
  split.
  { apply score_order_sorted, (arrange_sorted std_sort std_sort_ok). }
  clear Hperm Hnd.
  intros N. rewrite Hrun. split; [|split].
  - rewrite Z2Nat.inj_min, Nat2Z.id, Nat.min_comm, Nat.min_comm, firstn_min_length.
    reflexivity.
  - intros HN. rewrite firstn_all2 by (unfold scored in *; lia). reflexivity.
  - intros Hone.
    assert (Hnil : arrange std_sort (descending m) ps = []).
    { apply length_zero_iff_nil. lia. }
    rewrite Hnil, firstn_nil. simpl. rewrite app_nil_r.
    rewrite (scored_events_all _ _ _ _ Hps).
    assert (Hc : candidates (Z.of_nat k) data = []).
    { apply length_zero_iff_nil.
      apply (f_equal (@List.length _)) in Hnil. simpl in Hnil.
      pose proof (score_list_indices _ _ _ _ _ Hmax Hps) as Hidx.
      apply (f_equal (@List.length _)) in Hidx. rewrite !length_map in Hidx.
      pose proof (Permutation_length (arrange_perm std_sort std_sort_ok (descending m) ps)).
      unfold scored in *. lia. }
    now rewrite Hc.
Qed.

End ClaimsOnTruncation.

Lemma result_is_first_min_N_witness :
  exists tr all,
    List.length all = (List.length (Fixture.rows_of "features.csv") - 1)%nat /\
    Permutation (map snd all)
      (map fst (@candidates Fixture.platform 0 (Fixture.rows_of "features.csv"))) /\
    NoDup (map snd all) /\
    Forall (@scored_entry Fixture.platform calculate_ssd
              (Fixture.rows_of "features.csv") 0) all /\
    @ascending_sorted Fixture.platform all /\
    @score_order Fixture.platform false all /\
    forall N,
      @find_topN_matches Fixture.platform Fixture.sort ssd "A"
        (Fixture.names_of "features.csv") (Fixture.rows_of "features.csv") N [] =
        (tr, Returns (0, [] ++ names (Fixture.names_of "features.csv")
           (firstn (Z.to_nat (Z.min N (Z.of_nat (List.length all)))) all))) /\
      (Z.of_nat (List.length all) <= N ->
       @find_topN_matches Fixture.platform Fixture.sort ssd "A"
         (Fixture.names_of "features.csv") (Fixture.rows_of "features.csv") N [] =
         (tr, Returns (0, [] ++ names (Fixture.names_of "features.csv") all))) /\
      (List.length (Fixture.rows_of "features.csv") = 1%nat ->
       @find_topN_matches Fixture.platform Fixture.sort ssd "A"
         (Fixture.names_of "features.csv") (Fixture.rows_of "features.csv") N [] =
         ([], Returns (0, []))).
Proof.
  apply (@result_is_first_min_N Fixture.platform Fixture.sort
           fixture_sort_contract ssd "A"
           (Fixture.names_of "features.csv") (Fixture.rows_of "features.csv")
           [] 0%nat).
  - fixture_well_formed.
  - reflexivity.
  - fixture_scorable 2%nat.
Defined.

(** ** Failure of a helper *)

Lemma forall2_in_left {A B} (R : A -> B -> Prop) (l : list A) (l' : list B) (a : A) :
  Forall2 R l l' -> In a l -> exists b, In b l' /\ R a b.
Proof.
  induction 1 as [|a' b l l' Hab Hall IH]; simpl; [tauto|].
  intros [<- | Hin].
  - exists b. split; [now left | assumption].
  - destruct (IH Hin) as [b' [Hb' HR]]. exists b'. split; [now right | assumption].
Qed.

(** C3: with the metrics of the specification as helpers, every metric
    fails with [DimensionMismatch] on two vectors of different lengths, and
    a matcher that meets an entry whose vector does not have the length of
    the query's fails as a whole with [DimensionMismatch]: it returns no
    result (the entry is not dropped), and the failure is not an undefined
    read. *)
Theorem dimension_mismatch_is_fatal (P : Platform)
    (formula : helper -> list float -> list float -> float)
    (std_sort : list (@scored (with_checked_metrics P formula)) ->
                list (@scored (with_checked_metrics P formula)))
    (m : metric) (target : string) (filenames : list string)
    (data : list (@feature (with_checked_metrics P formula))) (N : Z)
    (output : list string) (k j : nat)
    (tv row : @feature (with_checked_metrics P formula)) :
  @well_formed (with_checked_metrics P formula) filenames data ->
  first_index target filenames = Some k ->
  nth_error data k = Some tv ->
  nth_error data j = Some row ->
  j <> k ->
  List.length row <> List.length tv ->
  (forall h a b, List.length a <> List.length b ->
     @calculate (with_checked_metrics P formula) h a b = inl DimensionMismatch) /\
  exists tr,
    @find_topN_matches (with_checked_metrics P formula) std_sort m
      target filenames data N output = (tr, Throws DimensionMismatch).
Proof.
  intros Hwf Hk Htv Hrow Hne Hlen.
  assert (Hcheck : forall h a b, List.length a <> List.length b ->
            @calculate (with_checked_metrics P formula) h a b = inl DimensionMismatch).
  { intros h a b Hab.
    change (checked_metric (formula h) a b = inl DimensionMismatch).
    unfold checked_metric.
    destruct (Nat.eqb _ _) eqn:E; [|reflexivity].
    apply Nat.eqb_eq in E. contradiction. }
  split; [exact Hcheck|].
  rewrite find_topN_matches_topN.
  destruct (topN_scoring std_sort (helper_of m) (descending m) target filenames
              data N output k Hwf Hk) as [tv' [Htv' Heq]].
  assert (tv' = tv) by congruence. subst tv'. rewrite Heq. clear Heq.
  destruct (score_list (helper_of m) tv (candidates (Z.of_nat k) data))
    as [e | ps] eqn:Hps.
  - destruct (score_list_fails _ _ _ _ Hps) as [[j' row'] [_ Hc]].
    change (checked_metric (formula (helper_of m)) row' tv = inl e) in Hc.
    unfold checked_metric in Hc.
    destruct (Nat.eqb _ _); [discriminate|]. injection Hc as <-.
    eexists. reflexivity.
  - exfalso.
    assert (Hin : In (Z.of_nat j, row) (candidates (Z.of_nat k) data)).
    { apply candidates_in. exists j. repeat split; [lia | assumption]. }
    destruct (forall2_in_left _ _ _ _ (score_list_entries _ _ _ _ Hps) Hin)
      as [p [_ [_ Hp]]].
    rewrite (Hcheck _ _ _ Hlen) in Hp. discriminate.
Qed.

Lemma dimension_mismatch_is_fatal_witness :
  (forall h a b, List.length a <> List.length b ->
     @calculate (with_checked_metrics Fixture.platform Fixture.formula) h a b =
     inl DimensionMismatch) /\
  exists tr,
    @find_topN_matches (with_checked_metrics Fixture.platform Fixture.formula)
      Fixture.sort ssd "A"
      (Fixture.names_of "ragged.csv") (Fixture.rows_of "ragged.csv") 2 [] =
    (tr, Throws DimensionMismatch).
Proof.
  apply (dimension_mismatch_is_fatal Fixture.platform Fixture.formula Fixture.sort
           ssd "A" (Fixture.names_of "ragged.csv") (Fixture.rows_of "ragged.csv")
           2 [] 0%nat 1%nat [0; 0] [1; 1; 1]).
  - fixture_well_formed.
  - reflexivity.
  - reflexivity.
  - reflexivity.
  - discriminate.
  - discriminate.
Defined.

(** ** Determinism *)

(** C9: the result of a matcher is determined by the data set, the query
    id, the metric and [N] alone: any two routines that meet the contract of
    [std::sort] give the same run, the order of the matches of equal score
    included, so that two calls on the same input return the same result. *)
Theorem ranking_is_deterministic {P : Platform}
    (sort1 sort2 : list scored -> list scored) (m : metric) (target : string)
    (filenames : list string) (data : list feature) (N : Z)
    (output : list string) :
  sort_contract sort1 -> sort_contract sort2 ->
  Z.of_nat (List.length data) <= 2 ^ 31 ->
  find_topN_matches sort1 m target filenames data N output =
  find_topN_matches sort2 m target filenames data N output.
Proof.
  intros C1 C2 Hmax. rewrite !find_topN_matches_topN. unfold topN.
  destruct (find_target_index target filenames =? -1); [reflexivity|].
  apply bind_ext. intros tv. rewrite score_loop_spec.
  destruct (score_list (helper_of m) tv _) as [e | ps] eqn:Hps; [reflexivity|].
  apply bind_returns. simpl.
  assert (Hnd : NoDup (map snd ps)).
  { rewrite (score_list_indices _ _ _ _ _ Hmax Hps).
    apply strongly_sorted_lt_nodup, candidates_indices. }
  assert (Heq : (if descending m then sort_reverse sort1 ps else sort_forward sort1 ps) =
                (if descending m then sort_reverse sort2 ps else sort_forward sort2 ps)).
  { unfold sort_reverse, sort_forward. destruct (descending m).
    - f_equal. apply sort_contract_unique; try assumption.
      rewrite map_rev. apply NoDup_rev. assumption.
    - now apply sort_contract_unique. }
  now rewrite Heq.
Qed.

Lemma ranking_is_deterministic_witness :
  @find_topN_matches Fixture.platform Fixture.sort rgb_hist "A"
    (Fixture.names_of "ties.csv") (Fixture.rows_of "ties.csv") 3 [] =
  @find_topN_matches Fixture.platform Fixture.sort_backwards rgb_hist "A"
    (Fixture.names_of "ties.csv") (Fixture.rows_of "ties.csv") 3 [].
Proof.
  apply (@ranking_is_deterministic Fixture.platform Fixture.sort
           Fixture.sort_backwards rgb_hist "A"
           (Fixture.names_of "ties.csv") (Fixture.rows_of "ties.csv") 3 []
           fixture_sort_contract fixture_sort_backwards_contract).
  simpl. lia.
Defined.

(** ** [main] *)

Section Main.
Context {P : Platform}.
Variable std_sort : list scored -> list scored.

(** C8: for every [N <= 0] ([N = 0] included) [main] prints "Invalid value
    for N" and leaves with status -1; it does so before any work begins:
    the feature file is not read, the query is not searched for and no
    helper is called (the trace holds the two banner lines and the message
    only). *)
Theorem invalid_N_rejected_first (argv : list string) :
  (5 <= List.length argv)%nat ->
  (String.length (nth 1 argv "") < 256)%nat ->
  (String.length (nth 2 argv "") < 256)%nat ->
  INT_MIN <= atoi_value (nth 3 argv "") <= 0 ->
  main std_sort argv =
  (banner argv ++
   [Stdout (line "Invalid value for N: %d. N must be a positive integer.")
      [AInt (atoi_value (nth 3 argv ""))]],
   Exits (-1)).
Proof.
  intros Hargc H1 H2 [HNmin HN]. unfold main.
  destruct (Z.ltb_spec (Z.of_nat (List.length argv)) 5); [lia|].
  unfold strcpy.
  destruct (Z.ltb_spec (Z.of_nat (String.length (nth 1 argv ""))) 256); [|lia].
  rewrite bind_ret. unfold printf. rewrite bind_emit.
  destruct (Z.ltb_spec (Z.of_nat (String.length (nth 2 argv ""))) 256); [|lia].
  rewrite bind_ret, bind_emit.
  unfold atoi, in_int_range.
  destruct (Z.leb_spec INT_MIN (atoi_value (nth 3 argv ""))); [|lia].
  destruct (Z.leb_spec (atoi_value (nth 3 argv "")) INT_MAX);
    [|unfold INT_MAX in *; lia].
  cbn [andb]. rewrite bind_ret.
  destruct (Z.leb_spec (atoi_value (nth 3 argv "")) 0); [|lia].
  rewrite bind_emit. reflexivity.
Qed.

(** A metric name that step 5 rejects and step 6 does not know makes
    [main] leave with status -1 after the data set was read, with the
    message of every failed run and without a call of a helper. *)
Lemma unknown_metric_fails (argv : list string) (filenames : list string)
    (data : list feature) :
  (5 <= List.length argv)%nat ->
  (String.length (nth 1 argv "") < 256)%nat ->
  (String.length (nth 2 argv "") < 256)%nat ->
  0 < atoi_value (nth 3 argv "") <= INT_MAX ->
  metric_rejected (nth 4 argv "") = true ->
  String.eqb (nth 4 argv "") "depth" = false ->
  read_image_data_csv (nth 2 argv "") = (0, (filenames, data)) ->
  main std_sort argv =
  (banner argv ++
   [Stdout (line "Invalid distance metric: %s. Must be 'ssd', 'intersection', 'multi-hist' or 'texture-color' or 'depth-dnn'.")
      [AStr (nth 4 argv "")];
    Stdout (line "Using distance metric: %s") [AStr (nth 4 argv "")];
    ReadCsv (nth 2 argv "");
    Stdout "Can not process the files: " []],
   Exits (-1)).
Proof.
  intros Hargc H1 H2 [HN HNmax] Hrej Hdepth Hcsv. unfold main.
  destruct (Z.ltb_spec (Z.of_nat (List.length argv)) 5); [lia|].
  unfold strcpy.
  destruct (Z.ltb_spec (Z.of_nat (String.length (nth 1 argv ""))) 256); [|lia].
  rewrite bind_ret. unfold printf. rewrite bind_emit.
  destruct (Z.ltb_spec (Z.of_nat (String.length (nth 2 argv ""))) 256); [|lia].
  rewrite bind_ret, bind_emit.
  unfold atoi, in_int_range.
  destruct (Z.leb_spec INT_MIN (atoi_value (nth 3 argv "")));
    [|unfold INT_MIN in *; lia].
  destruct (Z.leb_spec (atoi_value (nth 3 argv "")) INT_MAX); [|lia].
  cbn [andb]. rewrite bind_ret.
  destruct (Z.leb_spec (atoi_value (nth 3 argv "")) 0); [lia|].
  rewrite Hrej, Hcsv.
  unfold metric_rejected in Hrej.
  repeat (apply andb_true_iff in Hrej; destruct Hrej as [Hrej ?]).
  repeat match goal with
         | H : negb _ = true |- _ => apply negb_true_iff in H; rewrite H
         end.
  rewrite Hdepth. reflexivity.
Qed.

End Main.

Lemma invalid_N_rejected_first_witness :
  @main Fixture.platform Fixture.sort
    ["image_matcher"; "A"; "features.csv"; "0"; "ssd"] =
  ([Stdout "Find similar images for image %s " [AStr "A"];
    Stdout (line "from feature file %s") [AStr "features.csv"];
    Stdout (line "Invalid value for N: %d. N must be a positive integer.") [AInt 0]],
   Exits (-1)).
Proof.
  apply (@invalid_N_rejected_first Fixture.platform Fixture.sort
           ["image_matcher"; "A"; "features.csv"; "0"; "ssd"]).
  - simpl. lia.
  - simpl. lia.
  - simpl. lia.
  - vm_compute. split; discriminate.
Defined.

(** C1 fails on the code: "depth" is not among the names step 5 of [main]
    accepts, the message "Invalid distance metric" is printed, and [main]
    goes on: step 6 knows "depth", ranks with the texture-color helper,
    shows the matches and returns 0. *)
Theorem unknown_metric_depth_is_ranked :
  metric_rejected "depth" = true /\
  @main Fixture.platform Fixture.sort
    ["image_matcher"; "A"; "features.csv"; "2"; "depth"] =
  ([Stdout "Find similar images for image %s " [AStr "A"];
    Stdout (line "from feature file %s") [AStr "features.csv"];
    Stdout (line "Invalid distance metric: %s. Must be 'ssd', 'intersection', 'multi-hist' or 'texture-color' or 'depth-dnn'.")
      [AStr "depth"];
    Stdout (line "Using distance metric: %s") [AStr "depth"];
    ReadCsv "features.csv";
    Scored calculate_textureColor_distance 1;
    Scored calculate_textureColor_distance 2;
    Stdout "Output filenames: " [];
    Stdout "%s " [AStr "B"];
    Stdout "%s " [AStr "C"];
    Stdout nl [];
    Imread "A";
    Imshow "target";
    DisplayGallery ["B"; "C"]],
   Returns 0).
Proof. split; reflexivity. Qed.

(** ** The scenarios of the specification, on the fixture *)

(** Sum of squared differences: A:[0,0], B:[1,1], C:[5,5], query A, N = 1. *)
Example scenario_ssd :
  @find_topN_matches Fixture.platform Fixture.sort ssd "A"
    (Fixture.names_of "features.csv") (Fixture.rows_of "features.csv") 1 [] =
  ([Scored calculate_ssd 1; Scored calculate_ssd 2], Returns (0, ["B"])).
Proof. reflexivity. Qed.

(** Equal scores under an ascending metric: B and C both score 2, and B,
    the earlier entry, comes first. *)
Example scenario_ties_ascending :
  @find_topN_matches Fixture.platform Fixture.sort ssd "A"
    (Fixture.names_of "ties.csv") (Fixture.rows_of "ties.csv") 3 [] =
  ([Scored calculate_ssd 1; Scored calculate_ssd 2; Scored calculate_ssd 3],
   Returns (0, ["B"; "C"; "D"])).
Proof. reflexivity. Qed.

(** Equal scores under histogram intersection: B and C both score 9, and
    C, the later entry, comes first. *)
Example scenario_ties_descending :
  @find_topN_matches Fixture.platform Fixture.sort rgb_hist "A"
    (Fixture.names_of "ties.csv") (Fixture.rows_of "ties.csv") 3 [] =
  ([Scored calculate_histogramIntersection 1;
    Scored calculate_histogramIntersection 2;
    Scored calculate_histogramIntersection 3],
   Returns (0, ["C"; "B"; "D"])).
Proof. reflexivity. Qed.

(** A data set whose only entry is the query. *)
Example scenario_single_entry :
  @find_topN_matches Fixture.platform Fixture.sort ssd "A"
    (Fixture.names_of "single.csv") (Fixture.rows_of "single.csv") 3 [] =
  ([], Returns (0, [])).
Proof. reflexivity. Qed.

(** A metric name neither step of [main] knows. *)
Example scenario_unknown_metric :
  @main Fixture.platform Fixture.sort
    ["image_matcher"; "A"; "features.csv"; "1"; "cosine-unsupported"] =
  ([Stdout "Find similar images for image %s " [AStr "A"];
    Stdout (line "from feature file %s") [AStr "features.csv"];
    Stdout (line "Invalid distance metric: %s. Must be 'ssd', 'intersection', 'multi-hist' or 'texture-color' or 'depth-dnn'.")
      [AStr "cosine-unsupported"];
    Stdout (line "Using distance metric: %s") [AStr "cosine-unsupported"];
    ReadCsv "features.csv";
    Stdout "Can not process the files: " []],
   Exits (-1)).
Proof. reflexivity. Qed.

(** "depth-dnn" passes step 5 of [main] and has no matcher in step 6. *)
Example scenario_depth_dnn :
  metric_rejected "depth-dnn" = false /\
  @main Fixture.platform Fixture.sort
    ["image_matcher"; "A"; "features.csv"; "1"; "depth-dnn"] =
  ([Stdout "Find similar images for image %s " [AStr "A"];
    Stdout (line "from feature file %s") [AStr "features.csv"];
    ReadCsv "features.csv";
    Stdout "Can not process the files: " []],
   Exits (-1)).
Proof. split; reflexivity. Qed.

(** * Further properties of the matchers *)

(** ** [find_target_index] *)

(** X1: on at most 2^31 file names, [find_target_index] returns -1 exactly
    when the target is absent; otherwise it returns the least index whose
    file name equals the target. *)
Theorem find_target_index_least (target : string) (filenames : list string) :
  Z.of_nat (List.length filenames) <= 2 ^ 31 ->
  (find_target_index target filenames = -1 <-> ~ In target filenames) /\
  (In target filenames ->
   exists k,
     find_target_index target filenames = Z.of_nat k /\
     nth_error filenames k = Some target /\
     forall j, (j < k)%nat -> nth_error filenames j <> Some target).
Proof.
  intros Hlen. split.
  - split.
    + intros Hminus Hin. destruct (first_index_in _ _ Hin) as [k Hk].
      rewrite (find_target_index_found _ _ _ Hlen Hk) in Hminus. lia.
    + apply find_target_index_absent.
  - intros Hin. destruct (first_index_in _ _ Hin) as [k Hk].
    exists k. split; [now apply find_target_index_found|].
    now apply first_index_some.
Qed.

Lemma find_target_index_least_witness :
  (find_target_index "A" (Fixture.names_of "twice.csv") = -1 <->
   ~ In "A" (Fixture.names_of "twice.csv")) /\
  (In "A" (Fixture.names_of "twice.csv") ->
   exists k,
     find_target_index "A" (Fixture.names_of "twice.csv") = Z.of_nat k /\
     nth_error (Fixture.names_of "twice.csv") k = Some "A" /\
     forall j, (j < k)%nat -> nth_error (Fixture.names_of "twice.csv") j <> Some "A").
Proof.
  apply (find_target_index_least "A" (Fixture.names_of "twice.csv")).
  simpl. lia.
Defined.

(** ** What a matcher can end in *)

Section Outcomes.
Context {P : Platform}.
Variable std_sort : list scored -> list scored.

Lemma vec_at_outcome {A} (v : list A) (i : Z) :
  vec_at v i = undefined \/ exists a, vec_at v i = ret a.
Proof.
  unfold vec_at. destruct (i <? 0); [now left|].
  destruct (nth_error v (Z.to_nat i)) as [a|]; [right; now exists a | now left].
Qed.

Lemma output_loop_outcome (filenames : list string) (N : Z) (rest : list scored)
    (i : Z) (output : list string) :
  output_loop filenames N rest i output = undefined \/
  exists ext,
    output_loop filenames N rest i output = ret (output ++ ext) /\
    Z.of_nat (List.length ext) <= Z.max 0 (N - i).
Proof.
  revert i output. induction rest as [|[d j] rest IH]; intros i output; simpl.
  - right. exists []. rewrite app_nil_r. split; [reflexivity | simpl; lia].
  - destruct (Z.ltb_spec i N) as [Hlt | Hge].
    + destruct (vec_at_outcome filenames j) as [Hu | [f Hf]].
      * left. now rewrite Hu.
      * rewrite Hf, bind_ret.
        destruct (IH (i + 1) (output ++ [f])) as [Hu | [ext [Hext Hlen]]].
        -- now left.
        -- right. exists (f :: ext). rewrite Hext, <- app_assoc.
           split; [reflexivity | simpl List.length; lia].
    + right. exists []. rewrite app_nil_r. split; [reflexivity | simpl; lia].
Qed.

Lemma topN_outcome (h : helper) (desc : bool) (target : string)
    (filenames : list string) (data : list feature) (N : Z)
    (output : list string) :
  exists tr r,
    topN std_sort h desc target filenames data N output = (tr, r) /\
    (r = Undefined \/ (exists e, r = Throws e) \/ r = Returns (-1, output) \/
     exists ext,
       r = Returns (0, output ++ ext) /\
       Z.of_nat (List.length ext) <= Z.max 0 N).
Proof.
  unfold topN.
  destruct (find_target_index target filenames =? -1).
  { eexists. eexists. split; [reflexivity|]. right. right. now left. }
  destruct (vec_at_outcome data (to_size_t (find_target_index target filenames)))
    as [Hu | [tv Htv]].
  { rewrite Hu. eexists. eexists. split; [reflexivity|]. now left. }
  rewrite Htv, bind_ret, score_loop_spec.
  destruct (score_list h tv _) as [e | ps].
  { eexists. eexists. split; [reflexivity|]. right. left. now exists e. }
  unfold bind at 1. simpl app.
  destruct (output_loop_outcome filenames N
              (if desc then sort_reverse std_sort ps
               else sort_forward std_sort ps) 0 output)
    as [Hu | [ext [Hext Hlen]]].
  - rewrite Hu. eexists. eexists. split; [reflexivity|]. now left.
  - rewrite Hext, bind_ret. eexists. eexists. split; [reflexivity|].
    right. right. right. exists ext. split; [reflexivity | lia].
Qed.

(** X2: whatever the input, a matcher never ends the process; when it
    returns, its status is 0 or -1, the strings already in [output] are
    kept in front, at most [N] names are appended, and none with status -1. *)
Theorem matcher_keeps_output (m : metric) (target : string)
    (filenames : list string) (data : list feature) (N : Z)
    (output : list string) :
  (forall status,
     snd (find_topN_matches std_sort m target filenames data N output) <>
     Exits status) /\
  (forall result out,
     snd (find_topN_matches std_sort m target filenames data N output) =
     Returns (result, out) ->
     (result = 0 \/ result = -1) /\
     exists ext,
       out = output ++ ext /\
       (result = -1 -> ext = []) /\
       Z.of_nat (List.length ext) <= Z.max 0 N).
Proof.
  rewrite find_topN_matches_topN.
  destruct (topN_outcome (helper_of m) (descending m) target filenames data N output)
    as [tr [r [Hrun Hr]]].
  rewrite Hrun. simpl.
  destruct Hr as [-> | [[e ->] | [-> | [ext [-> Hlen]]]]].
  - split; discriminate.
  - split; discriminate.
  - split; [discriminate|]. intros result out [= <- <-].
    split; [now right|]. exists []. rewrite app_nil_r.
    repeat split. simpl. lia.
  - split; [discriminate|]. intros result out [= <- <-].
    split; [now left|]. exists ext. repeat split; [discriminate | assumption].
Qed.

(** X3: when the row of the target is missing (more file names than rows,
    the target at or beyond the number of rows), a matcher reads [data]
    out of bounds: the behaviour is undefined, and no helper was called. *)
Theorem target_row_out_of_bounds (m : metric) (target : string)
    (filenames : list string) (data : list feature) (N : Z)
    (output : list string) (k : nat) :
  Z.of_nat (List.length filenames) <= 2 ^ 31 ->
  first_index target filenames = Some k ->
  (List.length data <= k)%nat ->
  find_topN_matches std_sort m target filenames data N output = ([], Undefined).
Proof.
  intros Hmax Hk Hshort. rewrite find_topN_matches_topN. unfold topN.
  assert (Hkn : (k < List.length filenames)%nat).
  { apply first_index_some in Hk. apply nth_error_Some.
    destruct Hk as [Hk _]. congruence. }
  rewrite (find_target_index_found _ _ _ Hmax Hk).
  destruct (Z.eqb_spec (Z.of_nat k) (-1)); [lia|].
  rewrite to_size_t_small by (unfold INT_MAX; lia).
  unfold vec_at. destruct (Z.ltb_spec (Z.of_nat k) 0); [lia|].
  rewrite Nat2Z.id.
  apply nth_error_None in Hshort. now rewrite Hshort.
Qed.

(** X4: on pairs with distinct indices, sorting through reverse iterators
    leaves exactly the reverse of what the forward sort leaves, whatever
    routine [std::sort] is. *)
Theorem sort_reverse_is_reversed_sort (distances : list scored) :
  sort_contract std_sort ->
  NoDup (map snd distances) ->
  sort_reverse std_sort distances = rev (sort_forward std_sort distances).
Proof.
  intros Hc Hnd. unfold sort_reverse, sort_forward. f_equal.
  destruct (Hc distances) as [Hp1 Hs1]. destruct (Hc (rev distances)) as [Hp2 Hs2].
  apply sorted_perm_unique; try assumption.
  - rewrite <- Hp2, <- Hp1. symmetry. apply Permutation_rev.
  - apply Permutation_NoDup with (map snd distances); [|assumption].
    apply Permutation_map. rewrite <- Hp2. apply Permutation_rev.
Qed.

End Outcomes.

Lemma target_row_out_of_bounds_witness :
  @find_topN_matches Fixture.platform Fixture.sort ssd "C"
    (Fixture.names_of "features.csv") [[0; 0]; [1; 1]] 2 [] = ([], Undefined).
Proof.
  apply (@target_row_out_of_bounds Fixture.platform Fixture.sort ssd "C"
           (Fixture.names_of "features.csv") [[0; 0]; [1; 1]] 2 [] 2%nat).
  - simpl. lia.
  - reflexivity.
  - simpl. lia.
Defined.

Lemma sort_reverse_is_reversed_sort_witness :
  @sort_reverse Fixture.platform Fixture.sort [(9, 1); (9, 2); (6, 3)] =
  rev (@sort_forward Fixture.platform Fixture.sort [(9, 1); (9, 2); (6, 3)]).
Proof.
  apply (@sort_reverse_is_reversed_sort Fixture.platform Fixture.sort
           [(9, 1); (9, 2); (6, 3)] fixture_sort_contract).
  simpl. repeat constructor; simpl; intuition discriminate.
Defined.

(** ** Which entries are scored and returned *)

Lemma strongly_sorted_app_order {A} (R : A -> A -> Prop) (l1 l2 : list A) (p q : A) :
  StronglySorted R (l1 ++ l2) -> In p l1 -> In q l2 -> R p q.
Proof.
  induction l1 as [|a l1 IH]; simpl; intros Hs Hp Hq; [destruct Hp|].
  inversion Hs as [|? ? Hs' Ha]; subst.
  destruct Hp as [-> | Hp].
  - rewrite Forall_forall in Ha. apply Ha. apply in_or_app. now right.
  - now apply IH.
Qed.

Lemma perm_cons_filter (a : Z) (l : list Z) :
  NoDup l -> In a l ->
  Permutation (a :: filter (fun x => negb (x =? a)) l) l.
Proof.
  induction 1 as [|b l Hnotin Hnd IH]; simpl; [tauto|].
  intros [-> | Hin].
  - rewrite Z.eqb_refl. simpl. constructor.
    assert (Hsame : forall l', ~ In a l' -> filter (fun x => negb (x =? a)) l' = l').
    { induction l' as [|c l' IH']; simpl; intros Hc; [reflexivity|].
      destruct (Z.eqb_spec c a) as [-> | Hne]; simpl.
      - exfalso. apply Hc. now left.
      - f_equal. apply IH'. intros H. apply Hc. now right. }
    now rewrite Hsame.
  - destruct (Z.eqb_spec b a) as [-> | Hne]; [contradiction|]. simpl.
    rewrite perm_swap. constructor. now apply IH.
Qed.

Section Coverage.
Context {P : Platform}.

Lemma map_fst_enum_from_seq (rows : list feature) (i : nat) :
  map fst (enum_from (Z.of_nat i) rows) = map Z.of_nat (seq i (List.length rows)).
Proof.
  revert i. induction rows as [|row rows IH]; intros i; simpl; [reflexivity|].
  f_equal. rewrite <- IH. f_equal. f_equal. lia.
Qed.

Lemma filter_map_of_nat (k : nat) (l : list nat) :
  filter (fun j => negb (j =? Z.of_nat k)) (map Z.of_nat l) =
  map Z.of_nat (filter (fun n => negb (Nat.eqb n k)) l).
Proof.
  induction l as [|n l IH]; simpl; [reflexivity|].
  destruct (Z.eqb_spec (Z.of_nat n) (Z.of_nat k)) as [Heq | Hne],
           (Nat.eqb_spec n k) as [Heq' | Hne']; simpl; try lia.
  - apply IH.
  - now rewrite IH.
Qed.

(** The indices of the candidates are the indices of [data] without [k],
    in order. *)
Lemma candidate_indices_seq (data : list feature) (k : nat) :
  map fst (candidates (Z.of_nat k) data) =
  map Z.of_nat (filter (fun n => negb (Nat.eqb n k)) (seq 0 (List.length data))).
Proof.
  unfold candidates. rewrite map_fst_candidates.
  change 0 with (Z.of_nat 0). rewrite map_fst_enum_from_seq.
  apply filter_map_of_nat.
Qed.

Lemma names_of_enum (pre suf : list string) (rows : list feature) :
  List.length suf = List.length rows ->
  map (name_at (pre ++ suf))
    (map fst (enum_from (Z.of_nat (List.length pre)) rows)) = suf.
Proof.
  revert pre suf. induction rows as [|row rows IH]; intros pre suf Hlen.
  - destruct suf; [reflexivity | discriminate].
  - destruct suf as [|s suf]; [discriminate|]. simpl.
    f_equal.
    + unfold name_at. rewrite Nat2Z.id. apply nth_middle.
    + specialize (IH (pre ++ [s]) suf).
      rewrite <- app_assoc in IH. simpl in IH.
      rewrite length_app in IH. simpl in IH.
      replace (Z.of_nat (List.length pre) + 1)
        with (Z.of_nat (List.length pre + 1)) by lia.
      apply IH. simpl in Hlen. lia.
Qed.

End Coverage.

Section ExtraRanking.
Context {P : Platform}.
Variable std_sort : list scored -> list scored.
Hypothesis std_sort_ok : sort_contract std_sort.

(** X5: a matcher that finds the target calls its helper exactly once on
    every other entry, in the order of the data set, and never on the
    target's own row; the calls are the same for every [N], so that the
    whole data set is scored even when a single match is asked for. *)
Theorem every_other_entry_scored_once (m : metric) (target : string)
    (filenames : list string) (data : list feature)
    (output : list string) (k : nat) :
  well_formed filenames data ->
  first_index target filenames = Some k ->
  all_scorable (helper_of m) data k ->
  forall N,
    fst (find_topN_matches std_sort m target filenames data N output) =
    map (fun n => Scored (helper_of m) (Z.of_nat n))
      (filter (fun n => negb (Nat.eqb n k)) (seq 0 (List.length data))).
Proof.
  intros Hwf Hk Hall N.
  destruct (matcher_run std_sort std_sort_ok m target filenames data output k
              Hwf Hk Hall) as [tv [ps [Htv [Hps Hrun]]]].
  rewrite Hrun. simpl.
  rewrite (scored_events_all _ _ _ _ Hps).
  rewrite <- (map_map fst (fun j => Scored (helper_of m) j)).
  rewrite candidate_indices_seq, map_map. reflexivity.
Qed.

(** X6: when [N] is at least the number of other entries, the names a
    matcher appends, together with the target's own name, are the file
    names of the data set, each as often as it occurs there. *)
Theorem full_result_covers_data_set (m : metric) (target : string)
    (filenames : list string) (data : list feature) (N : Z)
    (output : list string) (k : nat) :
  well_formed filenames data ->
  first_index target filenames = Some k ->
  all_scorable (helper_of m) data k ->
  Z.of_nat (List.length data) - 1 <= N ->
  exists tr ext,
    find_topN_matches std_sort m target filenames data N output =
      (tr, Returns (0, output ++ ext)) /\
    Permutation (target :: ext) filenames.
Proof.
  intros Hwf Hk Hall HN.
  destruct (matcher_run std_sort std_sort_ok m target filenames data output k
              Hwf Hk Hall) as [tv [ps [Htv [Hps Hrun]]]].
  destruct Hwf as [Hlen Hmax].
  destruct (ranking_facts std_sort std_sort_ok (helper_of m) (descending m)
              data k tv ps Hmax Htv Hps) as [Hperm [_ [_ Hcount]]].
  eexists. eexists. split; [apply Hrun|].
  rewrite firstn_all2 by lia.
  assert (Hk' : nth_error filenames k = Some target)
    by now apply first_index_some.
  assert (Hname : name_at filenames (Z.of_nat k) = target).
  { unfold name_at. rewrite Nat2Z.id. now apply nth_error_nth. }
  unfold names. rewrite <- (map_map snd (name_at filenames)).
  rewrite <- Hname.
  change (name_at filenames (Z.of_nat k) ::
          map (name_at filenames) (map snd (arrange std_sort (descending m) ps)))
    with (map (name_at filenames)
            (Z.of_nat k :: map snd (arrange std_sort (descending m) ps))).
  rewrite <- (names_of_enum [] filenames data Hlen) at 2.
  apply Permutation_map. simpl app. simpl List.length.
  rewrite Hperm. unfold candidates. rewrite map_fst_candidates.
  apply perm_cons_filter.
  - apply strongly_sorted_lt_nodup, enum_from_indices.
  - apply in_map_iff. exists (Z.of_nat k, tv). split; [reflexivity|].
    apply enum_from_in. exists k. split; [lia | assumption].
Qed.

(** X7: the matches returned are the best ones: no entry that is left out
    has a score smaller (for rgb-hist: greater) than the score of a
    returned match, and every entry other than the target's is either
    returned or left out. *)
Theorem returned_matches_are_best (m : metric) (target : string)
    (filenames : list string) (data : list feature) (N : Z)
    (output : list string) (k : nat) :
  well_formed filenames data ->
  first_index target filenames = Some k ->
  all_scorable (helper_of m) data k ->
  exists tr ranked left_out,
    find_topN_matches std_sort m target filenames data N output =
      (tr, Returns (0, output ++ names filenames ranked)) /\
    Forall (scored_entry (helper_of m) data k) (ranked ++ left_out) /\
    (forall n, (n < List.length data)%nat -> n <> k ->
       In (Z.of_nat n) (map snd (ranked ++ left_out))) /\
    forall p q, In p ranked -> In q left_out ->
      match m with
      | rgb_hist => flt (fst p) (fst q) = false
      | ssd | multi_hist | texture_color => flt (fst q) (fst p) = false
      end.
Proof.
  intros Hwf Hk Hall.
  destruct (matcher_run std_sort std_sort_ok m target filenames data output k
              Hwf Hk Hall) as [tv [ps [Htv [Hps Hrun]]]].
  destruct Hwf as [Hlen Hmax].
  destruct (ranking_facts std_sort std_sort_ok (helper_of m) (descending m)
              data k tv ps Hmax Htv Hps) as [Hperm [Hentries _]].
  pose proof (arrange_sorted std_sort std_sort_ok (descending m) ps) as Hsorted.
  eexists.
  exists (firstn (Z.to_nat N) (arrange std_sort (descending m) ps)),
         (skipn (Z.to_nat N) (arrange std_sort (descending m) ps)).
  rewrite firstn_skipn.
  split; [apply Hrun|]. split; [assumption|]. split.
  - intros n Hn Hne.
    apply (Permutation_in _ (Permutation_sym Hperm)).
    rewrite candidate_indices_seq. apply in_map, filter_In. split.
    + apply in_seq. lia.
    + apply negb_true_iff, Nat.eqb_neq. assumption.
  - intros p q Hp Hq.
    rewrite <- (firstn_skipn (Z.to_nat N) (arrange std_sort (descending m) ps))
      in Hsorted.
    destruct m; simpl in Hsorted;
      pose proof (strongly_sorted_app_order _ _ _ p q Hsorted Hp Hq) as H;
      simpl in H; unfold pair_lt in H; now apply orb_false_iff in H.
Qed.

(** X8: a matcher does not test [N] itself: for [N <= 0] it still scores
    every other entry, then returns status 0 and leaves [output] as it
    was. *)
Theorem matcher_accepts_nonpositive_N (m : metric) (target : string)
    (filenames : list string) (data : list feature) (N : Z)
    (output : list string) (k : nat) :
  well_formed filenames data ->
  first_index target filenames = Some k ->
  all_scorable (helper_of m) data k ->
  N <= 0 ->
  find_topN_matches std_sort m target filenames data N output =
  (map (fun n => Scored (helper_of m) (Z.of_nat n))
     (filter (fun n => negb (Nat.eqb n k)) (seq 0 (List.length data))),
   Returns (0, output)).
Proof.
  intros Hwf Hk Hall HN.
  destruct (matcher_run std_sort std_sort_ok m target filenames data output k
              Hwf Hk Hall) as [tv [ps [Htv [Hps Hrun]]]].
  rewrite Hrun.
  replace (Z.to_nat N) with O by lia. simpl. rewrite app_nil_r.
  rewrite (scored_events_all _ _ _ _ Hps).
  rewrite <- (map_map fst (fun j => Scored (helper_of m) j)).
  rewrite candidate_indices_seq, map_map. reflexivity.
Qed.

End ExtraRanking.

Lemma every_other_entry_scored_once_witness :
  fst (@find_topN_matches Fixture.platform Fixture.sort ssd "B"
         (Fixture.names_of "ties.csv") (Fixture.rows_of "ties.csv") 1 []) =
  map (fun n => Scored calculate_ssd (Z.of_nat n))
    (filter (fun n => negb (Nat.eqb n 1))
       (seq 0 (List.length (Fixture.rows_of "ties.csv")))).
Proof.
  apply (@every_other_entry_scored_once Fixture.platform Fixture.sort
           fixture_sort_contract ssd "B"
           (Fixture.names_of "ties.csv") (Fixture.rows_of "ties.csv") [] 1%nat).
  - fixture_well_formed.
  - reflexivity.
  - fixture_scorable 2%nat.
Defined.

Lemma full_result_covers_data_set_witness :
  exists tr ext,
    @find_topN_matches Fixture.platform Fixture.sort ssd "A"
      (Fixture.names_of "twice.csv") (Fixture.rows_of "twice.csv") 5 [] =
      (tr, Returns (0, [] ++ ext)) /\
    Permutation ("A" :: ext) (Fixture.names_of "twice.csv").
Proof.
  apply (@full_result_covers_data_set Fixture.platform Fixture.sort
           fixture_sort_contract ssd "A"
           (Fixture.names_of "twice.csv") (Fixture.rows_of "twice.csv") 5 [] 0%nat).
  - fixture_well_formed.
  - reflexivity.
  - fixture_scorable 2%nat.
  - simpl. lia.
Defined.

Lemma returned_matches_are_best_witness :
  exists tr ranked left_out,
    @find_topN_matches Fixture.platform Fixture.sort rgb_hist "A"
      (Fixture.names_of "ties.csv") (Fixture.rows_of "ties.csv") 1 [] =
      (tr, Returns (0, [] ++ names (Fixture.names_of "ties.csv") ranked)) /\
    Forall (@scored_entry Fixture.platform calculate_histogramIntersection
              (Fixture.rows_of "ties.csv") 0) (ranked ++ left_out) /\
    (forall n, (n < List.length (Fixture.rows_of "ties.csv"))%nat -> n <> 0%nat ->
       In (Z.of_nat n) (map snd (ranked ++ left_out))) /\
    forall p q, In p ranked -> In q left_out -> (fst p <? fst q) = false.
Proof.
  apply (@returned_matches_are_best Fixture.platform Fixture.sort
           fixture_sort_contract rgb_hist "A"
           (Fixture.names_of "ties.csv") (Fixture.rows_of "ties.csv") 1 [] 0%nat).
  - fixture_well_formed.
  - reflexivity.
  - fixture_scorable 2%nat.
Defined.

Lemma matcher_accepts_nonpositive_N_witness :
  @find_topN_matches Fixture.platform Fixture.sort ssd "A"
    (Fixture.names_of "features.csv") (Fixture.rows_of "features.csv") (-3) ["kept"] =
  (map (fun n => Scored calculate_ssd (Z.of_nat n))
     (filter (fun n => negb (Nat.eqb n 0))
        (seq 0 (List.length (Fixture.rows_of "features.csv")))),
   Returns (0, ["kept"])).
Proof.
  apply (@matcher_accepts_nonpositive_N Fixture.platform Fixture.sort
           fixture_sort_contract ssd "A"
           (Fixture.names_of "features.csv") (Fixture.rows_of "features.csv")
           (-3) ["kept"] 0%nat).
  - fixture_well_formed.
  - reflexivity.
  - fixture_scorable 2%nat.
  - lia.
Defined.

(** * Further properties of [main] *)

Section MainSteps.
Context {P : Platform}.
Variable std_sort : list scored -> list scored.

Lemma print_filenames_events (output : list string) :
  print_filenames output =
  (map (fun filename => Stdout "%s " [AStr filename]) output, Returns tt).
Proof.
  induction output as [|f output IH]; cbn [print_filenames map]; [reflexivity|].
  unfold printf. rewrite bind_emit, IH. reflexivity.
Qed.

Lemma bind_after {A B} (t : list event) (m : M A) (f : A -> M B) :
  bind (after t m) f = after t (bind m f).
Proof.
  unfold after, bind. destruct m as [t' [a | s | e |]]; simpl; try reflexivity.
  destruct (f a) as [t'' r]. simpl. now rewrite app_assoc.
Qed.

(** [main] up to step 6, on arguments that pass steps 1 to 4 and a feature
    file that is read. *)
Lemma main_to_matcher (argv : list string) (filenames : list string)
    (data : list feature) :
  (5 <= List.length argv)%nat ->
  (String.length (nth 1 argv "") < 256)%nat ->
  (String.length (nth 2 argv "") < 256)%nat ->
  0 < atoi_value (nth 3 argv "") <= INT_MAX ->
  read_image_data_csv (nth 2 argv "") = (0, (filenames, data)) ->
  main std_sort argv =
  after (banner argv ++ warning (nth 4 argv "") ++ [ReadCsv (nth 2 argv "")])
    (bind
       (if String.eqb (nth 4 argv "") "ssd" then
          find_topN_matches_ssd std_sort (nth 1 argv "") filenames data
            (atoi_value (nth 3 argv "")) []
        else if String.eqb (nth 4 argv "") "rgb-hist" then
          find_topN_matches_rgb_hist std_sort (nth 1 argv "") filenames data
            (atoi_value (nth 3 argv "")) []
        else if String.eqb (nth 4 argv "") "multi-hist" then
          find_topN_matches_multiHist std_sort (nth 1 argv "") filenames data
            (atoi_value (nth 3 argv "")) []
        else if String.eqb (nth 4 argv "") "texture-color" then
          find_topN_matches_textureColor std_sort (nth 1 argv "") filenames data
            (atoi_value (nth 3 argv "")) []
        else if String.eqb (nth 4 argv "") "depth" then
          find_topN_matches_textureColor std_sort (nth 1 argv "") filenames data
            (atoi_value (nth 3 argv "")) []
        else ret (-1, []))
       (finish argv (nth 1 argv ""))).
Proof.
  intros Hargc H1 H2 [HN HNmax] Hcsv. unfold main.
  destruct (Z.ltb_spec (Z.of_nat (List.length argv)) 5); [lia|].
  unfold strcpy.
  destruct (Z.ltb_spec (Z.of_nat (String.length (nth 1 argv ""))) 256); [|lia].
  rewrite bind_ret. unfold printf. rewrite bind_emit.
  destruct (Z.ltb_spec (Z.of_nat (String.length (nth 2 argv ""))) 256); [|lia].
  rewrite bind_ret, bind_emit.
  unfold atoi, in_int_range.
  destruct (Z.leb_spec INT_MIN (atoi_value (nth 3 argv "")));
    [|unfold INT_MIN in *; lia].
  destruct (Z.leb_spec (atoi_value (nth 3 argv "")) INT_MAX); [|lia].
  cbn [andb]. rewrite bind_ret.
  destruct (Z.leb_spec (atoi_value (nth 3 argv "")) 0); [lia|].
  rewrite Hcsv. cbn [Z.eqb negb].
  unfold warning, after, banner.
  match goal with
  | |- context [bind ?m (fun r => let '(result, output) := r in _)] =>
      change (bind m (fun r => let '(result, output) := r in _))
        with (bind m (finish argv (nth 1 argv "")))
  end.
  destruct (metric_rejected (nth 4 argv "")).
  - unfold printf. rewrite !bind_emit. cbn [fst snd app].
    destruct (bind _ (finish argv (nth 1 argv ""))) as [t r]. reflexivity.
  - rewrite bind_ret, bind_emit. cbn [fst snd app].
    destruct (bind _ (finish argv (nth 1 argv ""))) as [t r]. reflexivity.
Qed.

End MainSteps.

(** Steps 1 to 3 of [main] on arguments that pass them, up to [atoi]. *)
Ltac main_to_atoi argv :=
  unfold main;
  destruct (Z.ltb_spec (Z.of_nat (List.length argv)) 5); [lia|];
  unfold strcpy;
  destruct (Z.ltb_spec (Z.of_nat (String.length (nth 1 argv ""))) 256); [|lia];
  rewrite bind_ret; unfold printf; rewrite bind_emit;
  destruct (Z.ltb_spec (Z.of_nat (String.length (nth 2 argv ""))) 256); [|lia];
  rewrite bind_ret, bind_emit;
  unfold atoi, in_int_range;
  destruct (Z.leb_spec INT_MIN (atoi_value (nth 3 argv "")));
    [|unfold INT_MIN in *; lia];
  destruct (Z.leb_spec (atoi_value (nth 3 argv "")) INT_MAX);
    [|unfold INT_MAX in *; lia];
  cbn [andb]; rewrite bind_ret.

Section MainProperties.
Context {P : Platform}.
Variable std_sort : list scored -> list scored.

(** X9: with fewer than four arguments after the program name, [main]
    prints the two usage lines and leaves with status -1; nothing is read
    and nothing is ranked. *)
Theorem main_usage (argv : list string) :
  (List.length argv < 5)%nat ->
  main std_sort argv =
  ([Stdout (line "usage: %s <target_image> <feature_file> <N> <distance_metric>")
      [AStr (nth 0 argv "")];
    Stdout (line "distance_metric options: ssd, rgb-hist, multi-hist, texture-color") []],
   Exits (-1)).
Proof.
  intros Hargc. unfold main.
  destruct (Z.ltb_spec (Z.of_nat (List.length argv)) 5); [|lia].
  reflexivity.
Qed.

(** X10: an argument that does not fit its buffer of 256 characters makes
    [main] overflow it: a target image name of 256 characters or more is
    undefined behaviour before anything is printed, a feature file name of
    that length right after the first line. *)
Theorem main_long_argument_overflows (argv : list string) :
  (5 <= List.length argv)%nat ->
  ((256 <= String.length (nth 1 argv ""))%nat ->
   main std_sort argv = ([], Undefined)) /\
  ((String.length (nth 1 argv "") < 256)%nat ->
   (256 <= String.length (nth 2 argv ""))%nat ->
   main std_sort argv =
   ([Stdout "Find similar images for image %s " [AStr (nth 1 argv "")]], Undefined)).
Proof.
  intros Hargc. split.
  - intros Hlong. unfold main.
    destruct (Z.ltb_spec (Z.of_nat (List.length argv)) 5); [lia|].
    unfold strcpy.
    destruct (Z.ltb_spec (Z.of_nat (String.length (nth 1 argv ""))) 256); [lia|].
    reflexivity.
  - intros Hshort Hlong. unfold main.
    destruct (Z.ltb_spec (Z.of_nat (List.length argv)) 5); [lia|].
    unfold strcpy.
    destruct (Z.ltb_spec (Z.of_nat (String.length (nth 1 argv ""))) 256); [|lia].
    rewrite bind_ret. unfold printf. rewrite bind_emit.
    destruct (Z.ltb_spec (Z.of_nat (String.length (nth 2 argv ""))) 256); [lia|].
    reflexivity.
Qed.

(** X11: when [read_image_data_csv] returns a status other than 0, [main]
    prints "Can not read the image csv file" and leaves with status -1
    without calling a matcher. *)
Theorem main_csv_failure (argv : list string) (status : Z)
    (filenames : list string) (data : list feature) :
  (5 <= List.length argv)%nat ->
  (String.length (nth 1 argv "") < 256)%nat ->
  (String.length (nth 2 argv "") < 256)%nat ->
  0 < atoi_value (nth 3 argv "") <= INT_MAX ->
  read_image_data_csv (nth 2 argv "") = (status, (filenames, data)) ->
  status <> 0 ->
  main std_sort argv =
  (banner argv ++ warning (nth 4 argv "") ++
   [ReadCsv (nth 2 argv "");
    Stdout (line "Can not read the image csv file: %s") [AStr (nth 2 argv "")]],
   Exits (-1)).
Proof.
  intros Hargc H1 H2 [HN HNmax] Hcsv Hstatus.
  main_to_atoi argv.
  destruct (Z.leb_spec (atoi_value (nth 3 argv "")) 0); [lia|].
  rewrite Hcsv.
  destruct (Z.eqb_spec status 0); [contradiction|]. cbn [negb].
  unfold warning, banner.
  destruct (metric_rejected (nth 4 argv "")).
  - unfold printf. rewrite !bind_emit. reflexivity.
  - rewrite bind_ret, !bind_emit. reflexivity.
Qed.

(** X12: an [N] that does not start with a number (after blanks: no sign,
    no digit) is read as 0 by [atoi], and [main] rejects it as an invalid
    value for [N]. *)
Theorem main_non_numeric_N (argv : list string) (c : ascii) (rest : string) :
  (5 <= List.length argv)%nat ->
  (String.length (nth 1 argv "") < 256)%nat ->
  (String.length (nth 2 argv "") < 256)%nat ->
  nth 3 argv "" = String c rest ->
  is_space c = false ->
  digit_of c = None ->
  c <> "-"%char ->
  c <> "+"%char ->
  main std_sort argv =
  (banner argv ++
   [Stdout (line "Invalid value for N: %d. N must be a positive integer.") [AInt 0]],
   Exits (-1)).
Proof.
  intros Hargc H1 H2 H3 Hspace Hdigit Hminus Hplus.
  assert (Hval : atoi_value (nth 3 argv "") = 0).
  { rewrite H3. cbn [atoi_value]. rewrite Hspace.
    assert (Hsigned : atoi_signed (String c rest) = atoi_digits (String c rest) 0).
    { unfold atoi_signed.
      destruct c as [[] [] [] [] [] [] [] []]; try reflexivity;
        exfalso; [now apply Hminus | now apply Hplus]. }
    rewrite Hsigned. cbn [atoi_digits]. now rewrite Hdigit. }
  unfold main.
  destruct (Z.ltb_spec (Z.of_nat (List.length argv)) 5); [lia|].
  unfold strcpy.
  destruct (Z.ltb_spec (Z.of_nat (String.length (nth 1 argv ""))) 256); [|lia].
  rewrite bind_ret. unfold printf. rewrite bind_emit.
  destruct (Z.ltb_spec (Z.of_nat (String.length (nth 2 argv ""))) 256); [|lia].
  rewrite bind_ret, bind_emit.
  unfold atoi. rewrite Hval. reflexivity.
Qed.

(** The chain of step 6 on the name of a matcher. *)
Lemma dispatch_known (m : metric) (name target : string)
    (filenames : list string) (data : list feature) (N : Z) :
  name = metric_name m ->
  (if String.eqb name "ssd" then
     find_topN_matches_ssd std_sort target filenames data N []
   else if String.eqb name "rgb-hist" then
     find_topN_matches_rgb_hist std_sort target filenames data N []
   else if String.eqb name "multi-hist" then
     find_topN_matches_multiHist std_sort target filenames data N []
   else if String.eqb name "texture-color" then
     find_topN_matches_textureColor std_sort target filenames data N []
   else if String.eqb name "depth" then
     find_topN_matches_textureColor std_sort target filenames data N []
   else ret (-1, [])) =
  find_topN_matches std_sort m target filenames data N [].
Proof. intros ->. destruct m; reflexivity. Qed.

Lemma warning_known (m : metric) : warning (metric_name m) = [].
Proof. destruct m; reflexivity. Qed.

Lemma bind_run {A B} (t : list event) (a : A) (f : A -> M B) :
  bind (t, Returns a) f = (t ++ fst (f a), snd (f a)).
Proof. unfold bind. now destruct (f a). Qed.

(** Step 7 on status 0. *)
Lemma finish_shown (argv : list string) (target_image : string)
    (output : list string) :
  finish argv target_image (0, output) =
  ([Stdout "Output filenames: " []] ++
   map (fun filename => Stdout "%s " [AStr filename]) output ++
   [Stdout nl []; Imread target_image] ++
   (if imread_empty target_image then
      [Stdout (line "Target image empty!") [AStr (nth 0 argv "")]]
    else [Imshow "target"; DisplayGallery output]),
   if imread_empty target_image then Exits (-1) else Returns 0).
Proof.
  unfold finish. cbn [Z.eqb negb].
  unfold cout, printf. rewrite bind_emit.
  rewrite print_filenames_events, bind_run, !bind_emit.
  destruct (imread_empty target_image); rewrite ?bind_emit; reflexivity.
Qed.

(** X13: for each of the four metric names, when the target image is not
    among the file names of the feature file, [main] leaves with status
    -1: after the matcher's "Target image not found!" it prints "Can not
    process the files: "; no helper is called and nothing is displayed. *)
Theorem main_target_not_found (argv : list string) (m : metric)
    (filenames : list string) (data : list feature) :
  (5 <= List.length argv)%nat ->
  (String.length (nth 1 argv "") < 256)%nat ->
  (String.length (nth 2 argv "") < 256)%nat ->
  0 < atoi_value (nth 3 argv "") <= INT_MAX ->
  read_image_data_csv (nth 2 argv "") = (0, (filenames, data)) ->
  nth 4 argv "" = metric_name m ->
  ~ In (nth 1 argv "") filenames ->
  main std_sort argv =
  (banner argv ++
   [ReadCsv (nth 2 argv "");
    Stderr (line "Target image not found!");
    Stdout "Can not process the files: " []],
   Exits (-1)).
Proof.
  intros Hargc H1 H2 HN Hcsv Hname Habsent.
  rewrite (main_to_matcher std_sort argv filenames data Hargc H1 H2 HN Hcsv).
  rewrite (dispatch_known m _ _ _ _ _ Hname), Hname, warning_known.
  rewrite find_topN_matches_topN. unfold topN.
  rewrite (find_target_index_absent _ _ Habsent).
  reflexivity.
Qed.

(** X14: for each of the four metric names, when the matcher returns
    status 0, [main] prints the matches in the matcher's order and reads
    the target image; if the image is empty it leaves with status -1,
    otherwise it shows the target and the gallery of exactly the matches
    and returns 0. *)
Theorem main_shows_matches (argv : list string) (m : metric)
    (filenames : list string) (data : list feature)
    (tr : list event) (output : list string) :
  (5 <= List.length argv)%nat ->
  (String.length (nth 1 argv "") < 256)%nat ->
  (String.length (nth 2 argv "") < 256)%nat ->
  0 < atoi_value (nth 3 argv "") <= INT_MAX ->
  read_image_data_csv (nth 2 argv "") = (0, (filenames, data)) ->
  nth 4 argv "" = metric_name m ->
  find_topN_matches std_sort m (nth 1 argv "") filenames data
    (atoi_value (nth 3 argv "")) [] = (tr, Returns (0, output)) ->
  main std_sort argv =
  (banner argv ++ [ReadCsv (nth 2 argv "")] ++ tr ++
   [Stdout "Output filenames: " []] ++
   map (fun filename => Stdout "%s " [AStr filename]) output ++
   [Stdout nl []; Imread (nth 1 argv "")] ++
   (if imread_empty (nth 1 argv "") then
      [Stdout (line "Target image empty!") [AStr (nth 0 argv "")]]
    else [Imshow "target"; DisplayGallery output]),
   if imread_empty (nth 1 argv "") then Exits (-1) else Returns 0).
Proof.
  intros Hargc H1 H2 HN Hcsv Hname Hrun.
  rewrite (main_to_matcher std_sort argv filenames data Hargc H1 H2 HN Hcsv).
  rewrite (dispatch_known m _ _ _ _ _ Hname), Hname, warning_known, Hrun.
  rewrite bind_run, finish_shown. unfold after. cbn [fst snd].
  destruct (imread_empty (nth 1 argv "")); rewrite <- !app_assoc; reflexivity.
Qed.

(** X15: a metric name for which step 6 has no matcher (any name other
    than ssd, rgb-hist, multi-hist, texture-color and depth; "depth-dnn",
    which step 5 accepts, is one) makes [main] leave with status -1 and
    "Can not process the files: " once the feature file is read; no helper
    is called, and the warning of step 5 is printed only if step 5 rejects
    the name. *)
Theorem main_without_matcher (argv : list string) (filenames : list string)
    (data : list feature) :
  (5 <= List.length argv)%nat ->
  (String.length (nth 1 argv "") < 256)%nat ->
  (String.length (nth 2 argv "") < 256)%nat ->
  0 < atoi_value (nth 3 argv "") <= INT_MAX ->
  read_image_data_csv (nth 2 argv "") = (0, (filenames, data)) ->
  ~ In (nth 4 argv "") ["ssd"; "rgb-hist"; "multi-hist"; "texture-color"; "depth"] ->
  main std_sort argv =
  (banner argv ++ warning (nth 4 argv "") ++
   [ReadCsv (nth 2 argv ""); Stdout "Can not process the files: " []],
   Exits (-1)).
Proof.
  intros Hargc H1 H2 HN Hcsv Hname.
  rewrite (main_to_matcher std_sort argv filenames data Hargc H1 H2 HN Hcsv).
  repeat match goal with
         | |- context [String.eqb (nth 4 argv "") ?s] =>
             destruct (String.eqb_spec (nth 4 argv "") s) as [Heq | _];
             [exfalso; apply Hname; rewrite Heq; simpl; tauto|]
         end.
  rewrite bind_ret. unfold after, finish. cbn [Z.eqb negb].
  unfold printf. rewrite bind_emit. cbn [fst snd exit].
  rewrite <- !app_assoc. reflexivity.
Qed.

End MainProperties.

Lemma main_usage_witness :
  @main Fixture.platform Fixture.sort ["image_matcher"; "A"; "features.csv"] =
  ([Stdout (line "usage: %s <target_image> <feature_file> <N> <distance_metric>")
      [AStr "image_matcher"];
    Stdout (line "distance_metric options: ssd, rgb-hist, multi-hist, texture-color") []],
   Exits (-1)).
Proof.
  apply (@main_usage Fixture.platform Fixture.sort
           ["image_matcher"; "A"; "features.csv"]).
  simpl. lia.
Defined.

Lemma main_long_argument_overflows_witness :
  ((256 <= String.length (Fixture.long_name 256))%nat ->
   @main Fixture.platform Fixture.sort
     ["image_matcher"; Fixture.long_name 256; "features.csv"; "2"; "ssd"] =
   ([], Undefined)) /\
  ((String.length (Fixture.long_name 256) < 256)%nat ->
   (256 <= String.length "features.csv")%nat ->
   @main Fixture.platform Fixture.sort
     ["image_matcher"; Fixture.long_name 256; "features.csv"; "2"; "ssd"] =
   ([Stdout "Find similar images for image %s " [AStr (Fixture.long_name 256)]],
    Undefined)).
Proof.
  apply (@main_long_argument_overflows Fixture.platform Fixture.sort
           ["image_matcher"; Fixture.long_name 256; "features.csv"; "2"; "ssd"]).
  simpl. lia.
Defined.

Lemma main_csv_failure_witness :
  @main Fixture.platform Fixture.sort
    ["image_matcher"; "A"; "missing.csv"; "2"; "ssd"] =
  ([Stdout "Find similar images for image %s " [AStr "A"];
    Stdout (line "from feature file %s") [AStr "missing.csv"];
    ReadCsv "missing.csv";
    Stdout (line "Can not read the image csv file: %s") [AStr "missing.csv"]],
   Exits (-1)).
Proof.
  apply (@main_csv_failure Fixture.platform Fixture.sort
           ["image_matcher"; "A"; "missing.csv"; "2"; "ssd"] (-1) [] []).
  - simpl. lia.
  - simpl. lia.
  - simpl. lia.
  - vm_compute. split; [reflexivity | discriminate].
  - reflexivity.
  - discriminate.
Defined.

Lemma main_non_numeric_N_witness :
  @main Fixture.platform Fixture.sort
    ["image_matcher"; "A"; "features.csv"; "many"; "ssd"] =
  ([Stdout "Find similar images for image %s " [AStr "A"];
    Stdout (line "from feature file %s") [AStr "features.csv"];
    Stdout (line "Invalid value for N: %d. N must be a positive integer.") [AInt 0]],
   Exits (-1)).
Proof.
  apply (@main_non_numeric_N Fixture.platform Fixture.sort
           ["image_matcher"; "A"; "features.csv"; "many"; "ssd"] "m"%char "any").
  - simpl. lia.
  - simpl. lia.
  - simpl. lia.
  - reflexivity.
  - reflexivity.
  - reflexivity.
  - discriminate.
  - discriminate.
Defined.

Lemma main_target_not_found_witness :
  @main Fixture.platform Fixture.sort
    ["image_matcher"; "Z"; "features.csv"; "2"; "rgb-hist"] =
  ([Stdout "Find similar images for image %s " [AStr "Z"];
    Stdout (line "from feature file %s") [AStr "features.csv"];
    ReadCsv "features.csv";
    Stderr (line "Target image not found!");
    Stdout "Can not process the files: " []],
   Exits (-1)).
Proof.
  apply (@main_target_not_found Fixture.platform Fixture.sort
           ["image_matcher"; "Z"; "features.csv"; "2"; "rgb-hist"] rgb_hist
           ["A"; "B"; "C"] [[0; 0]; [1; 1]; [5; 5]]).
  - simpl. lia.
  - simpl. lia.
  - simpl. lia.
  - vm_compute. split; [reflexivity | discriminate].
  - reflexivity.
  - reflexivity.
  - simpl. intros [H | [H | [H | []]]]; discriminate.
Defined.

Lemma main_shows_matches_witness :
  @main Fixture.platform Fixture.sort
    ["image_matcher"; "A"; "features.csv"; "2"; "ssd"] =
  ([Stdout "Find similar images for image %s " [AStr "A"];
    Stdout (line "from feature file %s") [AStr "features.csv"];
    ReadCsv "features.csv";
    Scored calculate_ssd 1;
    Scored calculate_ssd 2;
    Stdout "Output filenames: " [];
    Stdout "%s " [AStr "B"];
    Stdout "%s " [AStr "C"];
    Stdout nl [];
    Imread "A";
    Imshow "target";
    DisplayGallery ["B"; "C"]],
   Returns 0).
Proof.
  apply (@main_shows_matches Fixture.platform Fixture.sort
           ["image_matcher"; "A"; "features.csv"; "2"; "ssd"] ssd
           ["A"; "B"; "C"] [[0; 0]; [1; 1]; [5; 5]]
           [Scored calculate_ssd 1; Scored calculate_ssd 2] ["B"; "C"]).
  - simpl. lia.
  - simpl. lia.
  - simpl. lia.
  - vm_compute. split; [reflexivity | discriminate].
  - reflexivity.
  - reflexivity.
  - reflexivity.
Defined.

Lemma main_without_matcher_witness :
  @main Fixture.platform Fixture.sort
    ["image_matcher"; "A"; "features.csv"; "2"; "depth-dnn"] =
  ([Stdout "Find similar images for image %s " [AStr "A"];
    Stdout (line "from feature file %s") [AStr "features.csv"];
    ReadCsv "features.csv";
    Stdout "Can not process the files: " []],
   Exits (-1)).
Proof.
  apply (@main_without_matcher Fixture.platform Fixture.sort
           ["image_matcher"; "A"; "features.csv"; "2"; "depth-dnn"]
           ["A"; "B"; "C"] [[0; 0]; [1; 1]; [5; 5]]).
  - simpl. lia.
  - simpl. lia.
  - simpl. lia.
  - vm_compute. split; [reflexivity | discriminate].
  - reflexivity.
  - simpl. intros [H | [H | [H | [H | [H | []]]]]]; discriminate.
Defined.

Section MainFailure.
Context {P : Platform}.
Variable std_sort : list scored -> list scored.

(** X16: [main] has no handler around the matcher: when a scoring helper
    fails inside it, the failure ends [main] as it is; nothing more is
    printed and no image is read or shown. *)
Theorem main_does_not_catch (argv : list string) (m : metric)
    (filenames : list string) (data : list feature)
    (tr : list event) (e : exn) :
  (5 <= List.length argv)%nat ->
  (String.length (nth 1 argv "") < 256)%nat ->
  (String.length (nth 2 argv "") < 256)%nat ->
  0 < atoi_value (nth 3 argv "") <= INT_MAX ->
  read_image_data_csv (nth 2 argv "") = (0, (filenames, data)) ->
  nth 4 argv "" = metric_name m ->
  find_topN_matches std_sort m (nth 1 argv "") filenames data
    (atoi_value (nth 3 argv "")) [] = (tr, Throws e) ->
  main std_sort argv = (banner argv ++ [ReadCsv (nth 2 argv "")] ++ tr, Throws e).
Proof.
  intros Hargc H1 H2 HN Hcsv Hname Hrun.
  rewrite (main_to_matcher std_sort argv filenames data Hargc H1 H2 HN Hcsv).
  rewrite (dispatch_known std_sort m _ _ _ _ _ Hname), Hname, warning_known, Hrun.
  unfold after. cbn [bind fst snd]. rewrite <- !app_assoc. reflexivity.
Qed.

End MainFailure.

Lemma main_does_not_catch_witness :
  @main Fixture.platform Fixture.sort
    ["image_matcher"; "A"; "ragged.csv"; "2"; "ssd"] =
  ([Stdout "Find similar images for image %s " [AStr "A"];
    Stdout (line "from feature file %s") [AStr "ragged.csv"];
    ReadCsv "ragged.csv";
    Scored calculate_ssd 1],
   Throws DimensionMismatch).
Proof.
  apply (@main_does_not_catch Fixture.platform Fixture.sort
           ["image_matcher"; "A"; "ragged.csv"; "2"; "ssd"] ssd
           ["A"; "B"; "C"] [[0; 0]; [1; 1; 1]; [5; 5]]
           [Scored calculate_ssd 1] DimensionMismatch).
  - simpl. lia.
  - simpl. lia.
  - simpl. lia.
  - vm_compute. split; [reflexivity | discriminate].
  - reflexivity.
  - reflexivity.
  - reflexivity.
Defined.
